(** * Multi-model prediction ensemble of [index.js]

    A shallow embedding of the prediction core of [src/index.js]: the
    pattern extraction ([getPatternChar], [getRecentPatterns],
    [calculateRatios]), the five models ([model1PatternAnalysis] ...
    [model5Heuristic]), the aggregator ([ensemblePrediction]) and the pure
    part of the [/predict] handler (called [predict] here).

    Modelling choices.
    - JavaScript numbers are modelled twice.  In the first embedding a number
      is a [num]: an exact rational, or one of the three special values NaN,
      +Infinity, -Infinity; rounding and the sign of zero are left out, and
      the properties proved there bound or locate values.  In the second,
      module [B64], a number is a binary64 ([F64], the operations of
      [SpecFloat]) and every sum, product, quotient and comparison rounds as
      the program does; what depends on the last bit, such as which side
      wins a near tie or which digits are printed, is stated there.
    - JavaScript strings are [string]s (byte strings).  Every string the
      program inspects is ASCII; the Vietnamese rationale texts are only
      concatenated.
    - [Math.random()] reads the next draw of a stream [rnd], of rationals in
      the first embedding and of binary64 numbers in the second; the position
      in the stream is threaded through the code as state.
    - [Array.prototype.sort], a stable sort, is an insertion sort; loops over
      an index are recursions over the rest of the array or string.
    - A thrown [TypeError] is the [None] of an [option]; the handler's
      [try]/[catch] turns it into the status 500 answer. *)

From Stdlib Require Import String Ascii ZArith QArith Qround List Lia Lqa Bool.
From Stdlib Require Import DecimalString DecimalN Permutation Sorted SpecFloat.
Import ListNotations.

Local Open Scope string_scope.
Local Open Scope Q_scope.

(** ** JavaScript numbers *)

Module JSNum.

Inductive num : Type :=
| Fin (q : Q)
| NaN
| PInf
| NInf.

(** [x < y] on rationals, as a boolean. *)
Definition Qltb (x y : Q) : bool := negb (Qle_bool y x).

(** An integer, such as a counter or a length, as a number. *)
Definition of_Z (z : Z) : num := Fin (inject_Z z).

(** [- a] *)
Definition neg (a : num) : num :=
  match a with
  | Fin x => Fin (- x)
  | NaN => NaN
  | PInf => NInf
  | NInf => PInf
  end.

(** [a + b] *)
Definition add (a b : num) : num :=
  match a, b with
  | NaN, _ | _, NaN => NaN
  | Fin x, Fin y => Fin (x + y)
  | PInf, NInf | NInf, PInf => NaN
  | PInf, _ | _, PInf => PInf
  | NInf, _ | _, NInf => NInf
  end.

(** [a - b] *)
Definition sub (a b : num) : num := add a (neg b).

(** The infinity of a given sign. *)
Definition signed_inf (positive : bool) : num := if positive then PInf else NInf.

(** [a * b] *)
Definition mul (a b : num) : num :=
  match a, b with
  | NaN, _ | _, NaN => NaN
  | Fin x, Fin y => Fin (x * y)
  | Fin x, PInf | PInf, Fin x =>
      match x ?= 0 with Eq => NaN | Gt => PInf | Lt => NInf end
  | Fin x, NInf | NInf, Fin x =>
      match x ?= 0 with Eq => NaN | Gt => NInf | Lt => PInf end
  | PInf, PInf | NInf, NInf => PInf
  | PInf, NInf | NInf, PInf => NInf
  end.

(** [a / b]: a division by zero does not throw, it yields NaN or an
    infinity. *)
Definition div (a b : num) : num :=
  match a, b with
  | NaN, _ | _, NaN => NaN
  | Fin x, Fin y =>
      match y ?= 0 with
      | Eq => match x ?= 0 with Eq => NaN | Gt => PInf | Lt => NInf end
      | _ => Fin (x / y)
      end
  | Fin _, _ => Fin 0
  | PInf, Fin y => signed_inf (Qle_bool 0 y)
  | NInf, Fin y => signed_inf (negb (Qle_bool 0 y))
  | _, _ => NaN
  end.

(** [a > b]: every comparison with NaN is false. *)
Definition gtb (a b : num) : bool :=
  match a, b with
  | NaN, _ | _, NaN => false
  | Fin x, Fin y => Qltb y x
  | PInf, PInf => false
  | PInf, _ => true
  | _, NInf => match a with NInf => false | _ => true end
  | _, _ => false
  end.

(** [a < b] *)
Definition ltb (a b : num) : bool := gtb b a.

(** [Math.max(a, b)] *)
Definition max (a b : num) : num :=
  match a, b with
  | NaN, _ | _, NaN => NaN
  | _, _ => if gtb a b then a else b
  end.

(** Truthiness of a number: NaN and 0 are falsy. *)
Definition truthy (a : num) : bool :=
  match a with
  | NaN => false
  | Fin x => negb (Qeq_bool x 0)
  | _ => true
  end.

(** [a || d] *)
Definition or (a d : num) : num := if truthy a then a else d.

End JSNum.

Import JSNum.

(** ** JavaScript string operations *)

(** [s.slice(0, n)] *)
Definition slice0 (n : nat) (s : string) : string := substring 0 n s.

(** [s.slice(i, i + n)] *)
Definition slice (i n : nat) (s : string) : string := substring i n s.

(** [s[i] === c] *)
Definition char_at_is (s : string) (i : nat) (c : ascii) : bool :=
  match get i s with
  | Some d => (d =? c)%char
  | None => false
  end.

(** [s.includes(sub)] *)
Fixpoint includes (s sub : string) : bool :=
  prefix sub s ||
  match s with
  | EmptyString => false
  | String _ s' => includes s' sub
  end.

(** [arr.join(sep)] *)
Fixpoint join (sep : string) (l : list string) : string :=
  match l with
  | [] => ""
  | [x] => x
  | x :: l' => x ++ sep ++ join sep l'
  end.

(** *** [Number.prototype.toFixed(2)] *)

Definition digit_cons (d : N) (u : Decimal.uint) : Decimal.uint :=
  match d with
  | 0 => Decimal.D0 u | 1 => Decimal.D1 u | 2 => Decimal.D2 u
  | 3 => Decimal.D3 u | 4 => Decimal.D4 u | 5 => Decimal.D5 u
  | 6 => Decimal.D6 u | 7 => Decimal.D7 u | 8 => Decimal.D8 u
  | _ => Decimal.D9 u
  end%N.

(** The decimal rendering of [h] hundredths: the integer part, a point and
    two fractional digits. *)
Definition render_hundredths (h : N) : string :=
  NilEmpty.string_of_uint (N.to_uint (h / 100)) ++ "." ++
  NilEmpty.string_of_uint
    (digit_cons ((h / 10) mod 10) (digit_cons (h mod 10) Decimal.Nil)).

(** The integer [n] for which [n / 100 - x] is closest to zero, the larger
    one on a tie; [x] is not negative. *)
Definition round_hundredths (x : Q) : N := Z.to_N (Qfloor (x * 100 + 0.5)).

(** [x.toFixed(2)].  The exponent form the language uses from 1e21 upwards is
    left out: the program formats probabilities and percentages only. *)
Definition toFixed2 (x : num) : string :=
  match x with
  | NaN => "NaN"
  | PInf => "Infinity"
  | NInf => "-Infinity"
  | Fin q =>
      if Qltb q 0 then "-" ++ render_hundredths (round_hundredths (- q))
      else render_hundredths (round_hundredths q)
  end.

(** *** [parseFloat] *)

(** The longest prefix of decimal digits of [s], and what follows it. *)
Fixpoint span_digits (s : string) : Decimal.uint * string :=
  match s with
  | EmptyString => (Decimal.Nil, EmptyString)
  | String c r =>
      match uint_of_char c (Some Decimal.Nil) with
      | Some _ =>
          let (u, rest) := span_digits r in
          match uint_of_char c (Some u) with
          | Some u' => (u', rest)
          | None => (Decimal.Nil, s)
          end
      | None => (Decimal.Nil, s)
      end
  end.

Definition uint_length (u : Decimal.uint) : nat := Decimal.nb_digits u.

(** The unsigned part of [parseFloat]: digits, a point and digits, followed
    by anything. *)
Definition parse_decimal (s : string) : num :=
  let '(ip, s2) := span_digits s in
  let fp :=
    match s2 with
    | String "." r => fst (span_digits r)
    | _ => Decimal.Nil
    end in
  match ip, fp with
  | Decimal.Nil, Decimal.Nil => NaN
  | _, _ =>
      Fin (inject_Z (Z.of_N (N.of_uint ip)) +
           inject_Z (Z.of_N (N.of_uint fp)) /
           inject_Z (10 ^ Z.of_nat (uint_length fp)))
  end.

(** [parseFloat(s)] for a sign and a decimal.  Leading white space, exponents
    and the word Infinity, which [toFixed] never produces here, are not
    recognised. *)
Definition parseFloat (s : string) : num :=
  match s with
  | String c r =>
      if (c =? "-")%char then neg (parse_decimal r)
      else if (c =? "+")%char then parse_decimal r
      else parse_decimal s
  | EmptyString => NaN
  end.

(** ** Binary64 numbers *)

(** The numbers of the language as they are: IEEE 754 binary64, through the
    operations of [SpecFloat] at precision 53 and maximal exponent 1024. *)
Module F64.

Definition f64 : Type := spec_float.

Definition prec : Z := 53.
Definition emax : Z := 1024.

(** [a + b], [a - b], [a * b], [a / b] *)
Definition add : f64 -> f64 -> f64 := SFadd prec emax.
Definition sub : f64 -> f64 -> f64 := SFsub prec emax.
Definition mul : f64 -> f64 -> f64 := SFmul prec emax.
Definition div : f64 -> f64 -> f64 := SFdiv prec emax.

(** [a > b], [a < b] and [a == b] on numbers: false when one side is NaN. *)
Definition gtb (a b : f64) : bool := SFltb b a.
Definition ltb (a b : f64) : bool := SFltb a b.
Definition eqb (a b : f64) : bool := SFeqb a b.

Definition nan : f64 := S754_nan.

(** [Math.max(a, b)] *)
Definition max (a b : f64) : f64 :=
  match a, b with
  | S754_nan, _ | _, S754_nan => S754_nan
  | S754_zero sa, S754_zero sb => S754_zero (sa && sb)
  | _, _ => if gtb a b then a else b
  end.

(** Truthiness of a number: NaN and the two zeros are falsy. *)
Definition truthy (a : f64) : bool :=
  match a with
  | S754_nan | S754_zero _ => false
  | _ => true
  end.

(** [a || d] *)
Definition or (a d : f64) : f64 := if truthy a then a else d.

(** The number an integer is read as: the nearest binary64, the integer
    itself up to 2^53 in magnitude. *)
Definition of_Z (z : Z) : f64 := binary_normalize prec emax z 0 false.

(** The decimal literal [n / d], for integers below 2^53: the division of
    two exact numbers is rounded once, to the binary64 nearest to the
    quotient. *)
Definition dec (n d : Z) : f64 := div (of_Z n) (of_Z d).

(** The literals of the program. *)
Definition c0 : f64 := S754_zero false.
Definition c1 : f64 := Eval vm_compute in of_Z 1.
Definition c60 : f64 := Eval vm_compute in of_Z 60.
Definition c100 : f64 := Eval vm_compute in of_Z 100.
Definition c0_2 : f64 := Eval vm_compute in dec 2 10.
Definition c0_3 : f64 := Eval vm_compute in dec 3 10.
Definition c0_5 : f64 := Eval vm_compute in dec 5 10.
Definition c0_6 : f64 := Eval vm_compute in dec 6 10.
Definition c0_65 : f64 := Eval vm_compute in dec 65 100.
Definition c0_7 : f64 := Eval vm_compute in dec 7 10.
Definition c0_75 : f64 := Eval vm_compute in dec 75 100.
Definition c0_8 : f64 := Eval vm_compute in dec 8 10.

(** The real number a binary64 stands for. *)
Definition value (x : f64) : num :=
  match x with
  | S754_zero _ => Fin 0
  | S754_infinity s => if s then NInf else PInf
  | S754_nan => NaN
  | S754_finite s m e =>
      Fin ((if s then - (1) else 1) * inject_Z (Z.pos m) * Qpower 2 e)
  end.

(** [x.toFixed(2)]: the decimal rounding of the exact value of [x], the
    larger neighbour on a tie.  (From 10^21 on [toFixed] prints an exponent;
    the program prints shares and percentages, which stay below.) *)
Definition toFixed2 (x : f64) : string := toFixed2 (value x).

(** The binary64 nearest to a rational with numerator and denominator below
    2^53. *)
Definition of_num (x : num) : f64 :=
  match x with
  | Fin q => div (of_Z (Qnum q)) (of_Z (Z.pos (Qden q)))
  | NaN => S754_nan
  | PInf => S754_infinity false
  | NInf => S754_infinity true
  end.

(** [parseFloat(s)], for the decimals of at most fifteen digits that
    [toFixed(2)] prints here; the sign of a zero is not kept. *)
Definition parseFloat (s : string) : f64 := of_num (parseFloat s).

End F64.

(** ** Sessions and the normalizer *)

Record Session : Type := {
  id : Z;
  resultTruyenThong : string;
  dices : list Z;
  point : Z
}.

(** [sessions.sort((a, b) => b.id - a.id)]: the stable sort by descending
    [id], written as an insertion sort. *)
Fixpoint insert_desc (x : Session) (l : list Session) : list Session :=
  match l with
  | [] => [x]
  | y :: l' => if (id y <=? id x)%Z then x :: l else y :: insert_desc x l'
  end.

Definition sort_desc (l : list Session) : list Session :=
  fold_right insert_desc [] l.

Definition getPatternChar (result : string) : ascii :=
  if (result =? "TAI")%string then "T"%char else "X"%char.

Definition symbol (s : Session) : ascii := getPatternChar (resultTruyenThong s).

Definition getRecentPatterns (sessions : list Session) (minCount : nat) : string :=
  let patterns := rev (map symbol sessions) in
  string_of_list_ascii (firstn (Nat.max minCount (length patterns)) patterns).

Record Ratios : Type := { Tai : string; Xiu : string }.

Definition is_tai (s : Session) : bool := (resultTruyenThong s =? "TAI")%string.

Definition percent (count total : Z) : string :=
  toFixed2 (mul (div (of_Z count) (of_Z total)) (Fin 100)) ++ "%".

Definition calculateRatios (sessions : list Session) : Ratios :=
  let total := Z.of_nat (length sessions) in
  let taiCount := Z.of_nat (length (filter is_tai sessions)) in
  let xiuCount := (total - taiCount)%Z in
  {| Tai := percent taiCount total; Xiu := percent xiuCount total |}.

(** ** The random source *)

(** A computation that may call [Math.random()]: it reads the stream of draws
    from a position and returns the next position. *)
Definition M (A : Type) : Type := nat -> A * nat.

Definition ret {A} (a : A) : M A := fun i => (a, i).

Definition bind {A B} (m : M A) (k : A -> M B) : M B :=
  fun i => let (a, j) := m i in k a j.

Notation "x <- m ;; k" := (bind m (fun x => k))
  (at level 61, m at next level, right associativity).

(** ** Model votes *)

Record Vote : Type := {
  prediction : ascii;
  confidence : num;
  explain : string
}.

(** [/^(TX|XT)+$/.test(s)] *)
Fixpoint test_1_1 (s : string) : bool :=
  match s with
  | String a (String b r) =>
      (((a =? "T") && (b =? "X")) || ((a =? "X") && (b =? "T")))%char &&
      match r with
      | EmptyString => true
      | _ => test_1_1 r
      end
  | _ => false
  end.

(** [/(TTXX|XXTT)+/.test(s)] *)
Definition test_2_2 (s : string) : bool := includes s "TTXX" || includes s "XXTT".

(** The transition table of [model3Markov]. *)
Record Transitions : Type := { TT : Z; TX : Z; XT : Z; XX : Z }.

(** [transitions[key]++]; the keys are [prev + curr]. *)
Definition bump_transition (key : string) (t : Transitions) : Transitions :=
  if (key =? "TT")%string then
    {| TT := TT t + 1; TX := TX t; XT := XT t; XX := XX t |}
  else if (key =? "TX")%string then
    {| TT := TT t; TX := TX t + 1; XT := XT t; XX := XX t |}
  else if (key =? "XT")%string then
    {| TT := TT t; TX := TX t; XT := XT t + 1; XX := XX t |}
  else if (key =? "XX")%string then
    {| TT := TT t; TX := TX t; XT := XT t; XX := XX t + 1 |}
  else t.

(** [transitions[key]] read as a number: a missing key is [undefined], which
    arithmetic turns into NaN. *)
Definition transition (key : string) (t : Transitions) : num :=
  if (key =? "TT")%string then of_Z (TT t)
  else if (key =? "TX")%string then of_Z (TX t)
  else if (key =? "XT")%string then of_Z (XT t)
  else if (key =? "XX")%string then of_Z (XX t)
  else NaN.

(** [a + b] for two characters. *)
Definition key2 (a b : ascii) : string := String a (String b EmptyString).

(** The loop [for (let i = 1; i < sessions.length; i++)] of [model3Markov]:
    at each step [prev] is [sessions[i-1]] and [curr] is [sessions[i]]. *)
Fixpoint count_transitions (sessions : list Session) (t : Transitions) : Transitions :=
  match sessions with
  | prev :: (curr :: _) as rest =>
      count_transitions rest (bump_transition (key2 (symbol prev) (symbol curr)) t)
  | _ => t
  end.

(** The counters [nextCounts] of [model4NGram]. *)
Record NextCounts : Type := { nextT : Z; nextX : Z }.

(** [nextCounts[next]++]; [next] is a character of [history], or
    [undefined]. *)
Definition bump_next (next : option ascii) (c : NextCounts) : NextCounts :=
  match next with
  | Some k =>
      if (k =? "T")%char then {| nextT := nextT c + 1; nextX := nextX c |}
      else if (k =? "X")%char then {| nextT := nextT c; nextX := nextX c + 1 |}
      else c
  | None => c
  end.

(** The loop [for (let i = 0; i < history.length - n; i++)] of
    [model4NGram]; [h] is [history] from index [i] on, so that
    [i < history.length - n] reads [n < length h]. *)
Fixpoint ngram_scan (n : nat) (lastN h : string) (c : NextCounts) : NextCounts :=
  match h with
  | EmptyString => c
  | String _ h' =>
      ngram_scan n lastN h'
        (if (n <? String.length h)%nat && (slice0 n h =? lastN)%string
         then bump_next (get n h) c else c)
  end.

(** [pattern.match(/^([TX])\1*/)]: the longest run of the first character,
    when that character is T or X; [None] stands for [null]. *)
Fixpoint run_of (c : ascii) (s : string) : string :=
  match s with
  | String d r => if (d =? c)%char then String d (run_of c r) else EmptyString
  | EmptyString => EmptyString
  end.

Definition match_streak (s : string) : option string :=
  match s with
  | String c _ =>
      if ((c =? "T") || (c =? "X"))%char then Some (run_of c s) else None
  | EmptyString => None
  end.

(** The result of the aggregator. *)
Module Ensemble.
Record result : Type := {
  du_doan : string;
  do_tin_cay : string;
  giai_thich : string
}.
End Ensemble.

(** ** The five models *)

Section Models.

Variable rnd : nat -> Q.

(** [Math.random()] *)
Definition Math_random : M Q := fun i => (rnd i, S i).

(** Model 1: pattern analysis. *)
Definition model1PatternAnalysis (pattern : string) : M Vote :=
  let lastFew := slice0 5 pattern in
  if (lastFew =? "TTTTT")%string || (slice0 4 lastFew =? "TTTT")%string then
    ret {| prediction := "T"; confidence := Fin 0.8;
           explain := "Cầu bệt Tài dài, dự đoán tiếp tục Tài." |}
  else if (lastFew =? "XXXXX")%string || (slice0 4 lastFew =? "XXXX")%string then
    ret {| prediction := "X"; confidence := Fin 0.8;
           explain := "Cầu bệt Xỉu dài, dự đoán tiếp tục Xỉu." |}
  else if test_1_1 lastFew then
    ret {| prediction := if char_at_is lastFew 0 "T" then "X" else "T";
           confidence := Fin 0.7;
           explain := "Cầu 1-1 so le, dự đoán đảo chiều." |}
  else if test_2_2 (slice0 8 pattern) then
    ret {| prediction := if (slice0 2 lastFew =? "TT")%string then "X" else "T";
           confidence := Fin 0.75;
           explain := "Cầu 2-2, dự đoán chuyển sang nhóm tiếp theo." |}
  else if includes pattern "TTT X" then
    ret {| prediction := "T"; confidence := Fin 0.65;
           explain := "Cầu 3-1 Tài, dự đoán quay lại Tài." |}
  else if includes pattern "XXX T" then
    ret {| prediction := "X"; confidence := Fin 0.65;
           explain := "Cầu 3-1 Xỉu, dự đoán quay lại Xỉu." |}
  else
    r <- Math_random ;;
    ret {| prediction := if Qltb 0.5 r then "T" else "X";
           confidence := Fin 0.5;
           explain := "Không phát hiện mẫu rõ ràng, dự đoán ngẫu nhiên." |}.

(** The [ratio] of [model2Probability] over the rolling window
    [sessions.slice(0, 20)]. *)
Definition window_ratio (sessions : list Session) : num :=
  let recent20 := firstn 20 sessions in
  let taiCount := Z.of_nat (length (filter is_tai recent20)) in
  div (of_Z taiCount) (of_Z (Z.of_nat (length recent20))).

(** Model 2: frequency over the rolling window. *)
Definition model2Probability (sessions : list Session) : Vote :=
  let ratio := window_ratio sessions in
  if gtb ratio (Fin 0.7) then
    {| prediction := "X"; confidence := Fin 0.75;
       explain := "Tài xuất hiện >70% gần đây, dự đoán Xỉu để cân bằng." |}
  else if ltb ratio (Fin 0.3) then
    {| prediction := "T"; confidence := Fin 0.75;
       explain := "Xỉu xuất hiện >70% gần đây, dự đoán Tài để cân bằng." |}
  else
    {| prediction := if gtb ratio (Fin 0.5) then "T" else "X";
       confidence := Fin 0.6;
       explain := "Dựa trên tỷ lệ gần nhất, dự đoán theo bên chiếm ưu thế." |}.

(** The probability [pT] of [model3Markov], for the symbol [last]. *)
Definition markov_pT (last : ascii) (t : Transitions) : num :=
  let totalFromLast :=
    add (transition (key2 last "T") t) (transition (key2 last "X") t) in
  or (div (transition (key2 last "T") t) totalFromLast) (Fin 0.5).

(** The table [transitions] of [model3Markov] after its loop. *)
Definition transitions_of (sessions : list Session) : Transitions :=
  count_transitions sessions {| TT := 0; TX := 0; XT := 0; XX := 0 |}.

(** Model 3: Markov chain.  [sessions[0].resultTruyenThong] throws on an
    empty array. *)
Definition model3Markov (sessions : list Session) : option Vote :=
  let transitions := transitions_of sessions in
  match sessions with
  | [] => None
  | s0 :: _ =>
      let last := symbol s0 in
      let pT := markov_pT last transitions in
      Some {| prediction := if gtb pT (Fin 0.5) then "T" else "X";
              confidence := if gtb pT (Fin 0.5) then pT else sub (Fin 1) pT;
              explain := "Xác suất chuyển từ " ++ String last "" ++ " sang T: " ++
                         toFixed2 pT ++ ", dự đoán " ++
                         (if gtb pT (Fin 0.5) then "Tài" else "Xỉu") ++ "." |}
  end.

(** The counters [nextCounts] of [model4NGram] after its loop. *)
Definition ngram_counts (pattern : string) (sessions : list Session) : NextCounts :=
  let n := 4%nat in
  let history := string_of_list_ascii (map symbol sessions) in
  let lastN := slice0 n pattern in
  ngram_scan n lastN history {| nextT := 0; nextX := 0 |}.

(** Model 4: 4-gram matching. *)
Definition model4NGram (pattern : string) (sessions : list Session) : Vote :=
  let lastN := slice0 4 pattern in
  let nextCounts := ngram_counts pattern sessions in
  let total := (nextT nextCounts + nextX nextCounts)%Z in
  if (total =? 0)%Z then
    {| prediction := "T"; confidence := Fin 0.5;
       explain := "Không có mẫu khớp, dự đoán mặc định." |}
  else
    let pT := div (of_Z (nextT nextCounts)) (of_Z total) in
    {| prediction := if gtb pT (Fin 0.5) then "T" else "X";
       confidence := max pT (sub (Fin 1) pT);
       explain := "Từ mẫu " ++ lastN ++ ", tiếp theo T: " ++ toFixed2 pT ++
                  ", dự đoán " ++ (if gtb pT (Fin 0.5) then "Tài" else "Xỉu") ++
                  "." |}.

(** Model 5: rule-based heuristic.  Indexing the [null] of a failed match
    throws. *)
Definition model5Heuristic (pattern : string) (ratios : Ratios) : option Vote :=
  match match_streak pattern, get 0 pattern with
  | Some m, Some last =>
      let streak := String.length m in
      if (4 <=? streak)%nat then
        Some {| prediction := if (last =? "T")%char then "X" else "T";
                confidence := Fin 0.7;
                explain := "Chuỗi dài, dự đoán đảo chiều (gãy cầu)." |}
      else if gtb (parseFloat (Tai ratios)) (Fin 60) then
        Some {| prediction := "X"; confidence := Fin 0.65;
                explain := "Tỷ lệ Tài cao, dự đoán Xỉu." |}
      else
        Some {| prediction := last; confidence := Fin 0.6;
                explain := "Theo xu hướng gần nhất." |}
  | _, _ => None
  end.

(** ** The aggregator *)

(** The accumulators of [ensemblePrediction]. *)
Record Tally : Type := {
  votesT : num;
  votesX : num;
  explains : list string;
  totalConfidence : num
}.

(** [votes[pred] += conf; totalConfidence += conf; explains.push(text)] *)
Definition cast (pred : ascii) (conf : num) (text : string) (a : Tally) : Tally :=
  {| votesT := if (pred =? "T")%char then add (votesT a) conf else votesT a;
     votesX := if (pred =? "X")%char then add (votesX a) conf else votesX a;
     explains := explains a ++ [text];
     totalConfidence := add (totalConfidence a) conf |}.

Definition cast_model (a : Tally) (m : Vote) : Tally :=
  cast (prediction m) (confidence m) (explain m) a.

(** One synthetic voter: the body of the loop over [i]. *)
Definition synthetic (i : nat) : M Vote :=
  r1 <- Math_random ;;
  let avgPred := if Qltb 0.5 r1 then "T"%char else "X"%char in
  r2 <- Math_random ;;
  let conf := add (Fin 0.6) (mul (Fin r2) (Fin 0.2)) in
  ret {| prediction := avgPred; confidence := conf;
         explain := "AI bổ sung " ++
                    NilEmpty.string_of_uint (Nat.to_uint (i + 1)) ++
                    ": Dự đoán " ++
                    (if (avgPred =? "T")%char then "Tài" else "Xỉu") ++
                    " với độ tin cậy " ++ toFixed2 conf ++ "." |}.

(** [for (let i = start; i < start + count; i++)] *)
Fixpoint synthetic_loop (count start : nat) (a : Tally) : M Tally :=
  match count with
  | O => ret a
  | S count' =>
      v <- synthetic start ;;
      synthetic_loop count' (S start) (cast_model a v)
  end.

Definition ensemblePrediction (models : list Vote) : M Ensemble.result :=
  let a0 := {| votesT := Fin 0; votesX := Fin 0; explains := [];
               totalConfidence := Fin 0 |} in
  a <- synthetic_loop 5 0 (fold_left cast_model models a0) ;;
  let prediction := if gtb (votesT a) (votesX a) then "TAI" else "XIU" in
  let confidence :=
    toFixed2 (mul (div (max (votesT a) (votesX a)) (totalConfidence a)) (Fin 100))
    ++ "%" in
  let fullExplain :=
    "GIẢI THÍCH AI TỔNG HỢP: Phân tích từ 10 AI (5 model chính + 5 bổ sung). Mẫu cầu gần nhất: "
    ++ join " | " (explains a) ++ " Kết quả chính: " ++ prediction ++
    " dựa trên phiếu bầu và trọng số." in
  ret {| Ensemble.du_doan := prediction;
         Ensemble.do_tin_cay := confidence;
         Ensemble.giai_thich := fullExplain |}.

End Models.

(** ** The handler of [/predict] *)

Module Output.
Record t : Type := {
  session : Z;
  dice : list Z;
  total : Z;
  result : string;
  next_session : F64.f64;
  du_doan : string;
  do_tin_cay : string;
  giai_thich : string;
  pattern : string;
  ty_le : Ratios;
  id : string
}.
End Output.

(** What the handler sends: [res.json({ error })], with the status code, or
    [res.json(output)]. *)
Inductive Response : Type :=
| ErrorJson (status : Z) (error : string)
| OutputJson (output : Output.t).

(** The answer of the [catch] block. *)
Definition failed : Response := ErrorJson 500 "Failed to fetch or process data".

(** The handler, from [data.list] on. *)
Definition predict (rnd : nat -> Q) (data_list : list Session) : M Response :=
  let sessions := sort_desc data_list in
  match sessions with
  | [] => ret (ErrorJson 200 "No sessions found")
  | latest :: _ =>
      let patternStr := getRecentPatterns sessions 5 in
      let ratios := calculateRatios sessions in
      model1 <- model1PatternAnalysis rnd patternStr ;;
      let model2 := model2Probability sessions in
      match model3Markov sessions with
      | None => ret failed
      | Some model3 =>
          let model4 := model4NGram patternStr sessions in
          match model5Heuristic patternStr ratios with
          | None => ret failed
          | Some model5 =>
              let models := [model1; model2; model3; model4; model5] in
              e <- ensemblePrediction rnd models ;;
              ret (OutputJson
                     {| Output.session := id latest;
                        Output.dice := dices latest;
                        Output.total := point latest;
                        Output.result := resultTruyenThong latest;
                        Output.next_session := F64.add (F64.of_Z (id latest)) F64.c1;
                        Output.du_doan := Ensemble.du_doan e;
                        Output.do_tin_cay := Ensemble.do_tin_cay e;
                        Output.giai_thich := Ensemble.giai_thich e;
                        Output.pattern := patternStr;
                        Output.ty_le := ratios;
                        Output.id := "Việt Anh Bá Sàn Tool" |})
          end
      end
  end.

(** A session with no auxiliary data. *)
Definition mk (i : Z) (r : string) : Session :=
  {| id := i; resultTruyenThong := r; dices := []; point := 0 |}.

(** ** The program over binary64 numbers *)

(** The same code with every number a binary64: the sums, quotients and
    comparisons of the models and of the aggregator round as the program
    does.  Counters and lengths stay integers, which binary64 holds exactly;
    the sort, the pattern and the tables of models 3 and 4 are those above. *)
Module B64.

Record Vote : Type := {
  prediction : ascii;
  confidence : F64.f64;
  explain : string
}.

Definition percent (count total : Z) : string :=
  F64.toFixed2 (F64.mul (F64.div (F64.of_Z count) (F64.of_Z total)) F64.c100)
  ++ "%".

Definition calculateRatios (sessions : list Session) : Ratios :=
  let total := Z.of_nat (length sessions) in
  let taiCount := Z.of_nat (length (filter is_tai sessions)) in
  let xiuCount := (total - taiCount)%Z in
  {| Tai := percent taiCount total; Xiu := percent xiuCount total |}.

(** [transitions[key]] read as a number. *)
Definition transition (key : string) (t : Transitions) : F64.f64 :=
  if (key =? "TT")%string then F64.of_Z (TT t)
  else if (key =? "TX")%string then F64.of_Z (TX t)
  else if (key =? "XT")%string then F64.of_Z (XT t)
  else if (key =? "XX")%string then F64.of_Z (XX t)
  else F64.nan.

(** The accumulators of [ensemblePrediction]. *)
Record Tally : Type := {
  votesT : F64.f64;
  votesX : F64.f64;
  explains : list string;
  totalConfidence : F64.f64
}.

(** [votes[pred] += conf; totalConfidence += conf; explains.push(text)] *)
Definition cast (pred : ascii) (conf : F64.f64) (text : string) (a : Tally) : Tally :=
  {| votesT := if (pred =? "T")%char then F64.add (votesT a) conf else votesT a;
     votesX := if (pred =? "X")%char then F64.add (votesX a) conf else votesX a;
     explains := explains a ++ [text];
     totalConfidence := F64.add (totalConfidence a) conf |}.

Definition cast_model (a : Tally) (m : Vote) : Tally :=
  cast (prediction m) (confidence m) (explain m) a.

Definition tally0 : Tally :=
  {| votesT := F64.c0; votesX := F64.c0; explains := [];
     totalConfidence := F64.c0 |}.

Section Models.

(** The draws of [Math.random()], binary64 numbers. *)
Variable rnd : nat -> F64.f64.

Definition Math_random : M F64.f64 := fun i => (rnd i, S i).

Definition model1PatternAnalysis (pattern : string) : M Vote :=
  let lastFew := slice0 5 pattern in
  if (lastFew =? "TTTTT")%string || (slice0 4 lastFew =? "TTTT")%string then
    ret {| prediction := "T"; confidence := F64.c0_8;
           explain := "Cầu bệt Tài dài, dự đoán tiếp tục Tài." |}
  else if (lastFew =? "XXXXX")%string || (slice0 4 lastFew =? "XXXX")%string then
    ret {| prediction := "X"; confidence := F64.c0_8;
           explain := "Cầu bệt Xỉu dài, dự đoán tiếp tục Xỉu." |}
  else if test_1_1 lastFew then
    ret {| prediction := if char_at_is lastFew 0 "T" then "X" else "T";
           confidence := F64.c0_7;
           explain := "Cầu 1-1 so le, dự đoán đảo chiều." |}
  else if test_2_2 (slice0 8 pattern) then
    ret {| prediction := if (slice0 2 lastFew =? "TT")%string then "X" else "T";
           confidence := F64.c0_75;
           explain := "Cầu 2-2, dự đoán chuyển sang nhóm tiếp theo." |}
  else if includes pattern "TTT X" then
    ret {| prediction := "T"; confidence := F64.c0_65;
           explain := "Cầu 3-1 Tài, dự đoán quay lại Tài." |}
  else if includes pattern "XXX T" then
    ret {| prediction := "X"; confidence := F64.c0_65;
           explain := "Cầu 3-1 Xỉu, dự đoán quay lại Xỉu." |}
  else
    r <- Math_random ;;
    ret {| prediction := if F64.gtb r F64.c0_5 then "T" else "X";
           confidence := F64.c0_5;
           explain := "Không phát hiện mẫu rõ ràng, dự đoán ngẫu nhiên." |}.

Definition window_ratio (sessions : list Session) : F64.f64 :=
  let recent20 := firstn 20 sessions in
  let taiCount := Z.of_nat (length (filter is_tai recent20)) in
  F64.div (F64.of_Z taiCount) (F64.of_Z (Z.of_nat (length recent20))).

Definition model2Probability (sessions : list Session) : Vote :=
  let ratio := window_ratio sessions in
  if F64.gtb ratio F64.c0_7 then
    {| prediction := "X"; confidence := F64.c0_75;
       explain := "Tài xuất hiện >70% gần đây, dự đoán Xỉu để cân bằng." |}
  else if F64.ltb ratio F64.c0_3 then
    {| prediction := "T"; confidence := F64.c0_75;
       explain := "Xỉu xuất hiện >70% gần đây, dự đoán Tài để cân bằng." |}
  else
    {| prediction := if F64.gtb ratio F64.c0_5 then "T" else "X";
       confidence := F64.c0_6;
       explain := "Dựa trên tỷ lệ gần nhất, dự đoán theo bên chiếm ưu thế." |}.

Definition markov_pT (last : ascii) (t : Transitions) : F64.f64 :=
  let totalFromLast :=
    F64.add (transition (key2 last "T") t) (transition (key2 last "X") t) in
  F64.or (F64.div (transition (key2 last "T") t) totalFromLast) F64.c0_5.

Definition model3Markov (sessions : list Session) : option Vote :=
  let transitions := transitions_of sessions in
  match sessions with
  | [] => None
  | s0 :: _ =>
      let last := symbol s0 in
      let pT := markov_pT last transitions in
      Some {| prediction := if F64.gtb pT F64.c0_5 then "T" else "X";
              confidence := if F64.gtb pT F64.c0_5 then pT else F64.sub F64.c1 pT;
              explain := "Xác suất chuyển từ " ++ String last "" ++ " sang T: " ++
                         F64.toFixed2 pT ++ ", dự đoán " ++
                         (if F64.gtb pT F64.c0_5 then "Tài" else "Xỉu") ++ "." |}
  end.

Definition model4NGram (pattern : string) (sessions : list Session) : Vote :=
  let lastN := slice0 4 pattern in
  let nextCounts := ngram_counts pattern sessions in
  let total := (nextT nextCounts + nextX nextCounts)%Z in
  if (total =? 0)%Z then
    {| prediction := "T"; confidence := F64.c0_5;
       explain := "Không có mẫu khớp, dự đoán mặc định." |}
  else
    let pT := F64.div (F64.of_Z (nextT nextCounts)) (F64.of_Z total) in
    {| prediction := if F64.gtb pT F64.c0_5 then "T" else "X";
       confidence := F64.max pT (F64.sub F64.c1 pT);
       explain := "Từ mẫu " ++ lastN ++ ", tiếp theo T: " ++ F64.toFixed2 pT ++
                  ", dự đoán " ++ (if F64.gtb pT F64.c0_5 then "Tài" else "Xỉu") ++
                  "." |}.

Definition model5Heuristic (pattern : string) (ratios : Ratios) : option Vote :=
  match match_streak pattern, get 0 pattern with
  | Some m, Some last =>
      let streak := String.length m in
      if (4 <=? streak)%nat then
        Some {| prediction := if (last =? "T")%char then "X" else "T";
                confidence := F64.c0_7;
                explain := "Chuỗi dài, dự đoán đảo chiều (gãy cầu)." |}
      else if F64.gtb (F64.parseFloat (Tai ratios)) F64.c60 then
        Some {| prediction := "X"; confidence := F64.c0_65;
                explain := "Tỷ lệ Tài cao, dự đoán Xỉu." |}
      else
        Some {| prediction := last; confidence := F64.c0_6;
                explain := "Theo xu hướng gần nhất." |}
  | _, _ => None
  end.

(** One synthetic voter: the body of the loop over [i]. *)
Definition synthetic (i : nat) : M Vote :=
  r1 <- Math_random ;;
  let avgPred := if F64.gtb r1 F64.c0_5 then "T"%char else "X"%char in
  r2 <- Math_random ;;
  let conf := F64.add F64.c0_6 (F64.mul r2 F64.c0_2) in
  ret {| prediction := avgPred; confidence := conf;
         explain := "AI bổ sung " ++
                    NilEmpty.string_of_uint (Nat.to_uint (i + 1)) ++
                    ": Dự đoán " ++
                    (if (avgPred =? "T")%char then "Tài" else "Xỉu") ++
                    " với độ tin cậy " ++ F64.toFixed2 conf ++ "." |}.

Fixpoint synthetic_loop (count start : nat) (a : Tally) : M Tally :=
  match count with
  | O => ret a
  | S count' =>
      v <- synthetic start ;;
      synthetic_loop count' (S start) (cast_model a v)
  end.

Definition ensemblePrediction (models : list Vote) : M Ensemble.result :=
  a <- synthetic_loop 5 0 (fold_left cast_model models tally0) ;;
  let prediction := if F64.gtb (votesT a) (votesX a) then "TAI" else "XIU" in
  let confidence :=
    F64.toFixed2
      (F64.mul (F64.div (F64.max (votesT a) (votesX a)) (totalConfidence a))
               F64.c100)
    ++ "%" in
  let fullExplain :=
    "GIẢI THÍCH AI TỔNG HỢP: Phân tích từ 10 AI (5 model chính + 5 bổ sung). Mẫu cầu gần nhất: "
    ++ join " | " (explains a) ++ " Kết quả chính: " ++ prediction ++
    " dựa trên phiếu bầu và trọng số." in
  ret {| Ensemble.du_doan := prediction;
         Ensemble.do_tin_cay := confidence;
         Ensemble.giai_thich := fullExplain |}.

(** The handler, from [data.list] on. *)
Definition predict (data_list : list Session) : M Response :=
  let sessions := sort_desc data_list in
  match sessions with
  | [] => ret (ErrorJson 200 "No sessions found")
  | latest :: _ =>
      let patternStr := getRecentPatterns sessions 5 in
      let ratios := calculateRatios sessions in
      model1 <- model1PatternAnalysis patternStr ;;
      let model2 := model2Probability sessions in
      match model3Markov sessions with
      | None => ret failed
      | Some model3 =>
          let model4 := model4NGram patternStr sessions in
          match model5Heuristic patternStr ratios with
          | None => ret failed
          | Some model5 =>
              let models := [model1; model2; model3; model4; model5] in
              e <- ensemblePrediction models ;;
              ret (OutputJson
                     {| Output.session := id latest;
                        Output.dice := dices latest;
                        Output.total := point latest;
                        Output.result := resultTruyenThong latest;
                        Output.next_session := F64.add (F64.of_Z (id latest)) F64.c1;
                        Output.du_doan := Ensemble.du_doan e;
                        Output.do_tin_cay := Ensemble.do_tin_cay e;
                        Output.giai_thich := Ensemble.giai_thich e;
                        Output.pattern := patternStr;
                        Output.ty_le := ratios;
                        Output.id := "Việt Anh Bá Sàn Tool" |})
          end
      end
  end.

(** The synthetic voters of a run that starts at position [i] of the stream. *)
Fixpoint synthetic_voters (count start i : nat) : list Vote :=
  match count with
  | O => []
  | S count' => fst (synthetic start i) :: synthetic_voters count' (S start) (i + 2)
  end.

End Models.

(** [votes[c]]: the confidences of the voters for [c], added up in order. *)
Definition weight_for (c : ascii) (voters : list Vote) : F64.f64 :=
  fold_left F64.add
    (map confidence (filter (fun v => (prediction v =? c)%char) voters)) F64.c0.

(** [total_weight]: the confidences of all voters, added up in order. *)
Definition total_weight (voters : list Vote) : F64.f64 :=
  fold_left F64.add (map confidence voters) F64.c0.

End B64.

(** ** Predicates and specification-side definitions *)

(** [s] is empty or starts with a character that is not a decimal digit. *)
Definition nondigit_start (s : string) : Prop :=
  match s with
  | EmptyString => True
  | String c _ => uint_of_char c (Some Decimal.Nil) = None
  end.

(** The two symbols of a pattern. *)
Definition is_TX (c : ascii) : Prop := c = "T"%char \/ c = "X"%char.

(** A vote for T or X with a finite confidence between 0.5 and 1. *)
Definition well_formed (v : Vote) : Prop :=
  is_TX (prediction v) /\
  exists q, confidence v = Fin q /\ 0.5 <= q <= 1.

(** The four counters of a transition table are not negative. *)
Definition counted (t : Transitions) : Prop :=
  (0 <= TT t /\ 0 <= TX t /\ 0 <= XT t /\ 0 <= XX t)%Z.

(** The two counters of the N-gram model are not negative. *)
Definition tallied (c : NextCounts) : Prop := (0 <= nextT c /\ 0 <= nextX c)%Z.

(** The order the handler sorts by: [a] may stand before [b]. *)
Definition desc (a b : Session) : Prop := (id b <= id a)%Z.

(** The accumulators hold finite numbers, neither vote sum exceeds the total
    weight, and the total weight is at least [lo]. *)
Definition tally_ok (lo : Q) (a : Tally) : Prop :=
  exists t x w,
    votesT a = Fin t /\ votesX a = Fin x /\ totalConfidence a = Fin w /\
    0 <= t <= w /\ 0 <= x <= w /\ lo <= w.

(** Every draw of the stream lies in the range of [Math.random()]. *)
Definition unit_draws (rnd : nat -> Q) : Prop := forall k, 0 <= rnd k < 1.

(** The synthetic voters of a run that starts at position [i] of the stream. *)
Fixpoint synthetic_voters (rnd : nat -> Q) (count start i : nat) : list Vote :=
  match count with
  | O => []
  | S count' =>
      fst (synthetic rnd start i) :: synthetic_voters rnd count' (S start) (i + 2)
  end.

(** [votes[c]]: the confidences of the voters for [c], added up in order. *)
Definition weight_for (c : ascii) (voters : list Vote) : num :=
  fold_left add
    (map confidence (filter (fun v => (prediction v =? c)%char) voters)) (Fin 0).

(** [total_weight]: the confidences of all voters, added up in order. *)
Definition total_weight (voters : list Vote) : num :=
  fold_left add (map confidence voters) (Fin 0).

(** Two streams that agree on the [n] draws from position [i] on. *)
Definition agree (rnd1 rnd2 : nat -> Q) (i n : nat) : Prop :=
  forall k, (i <= k < i + n)%nat -> rnd1 k = rnd2 k.

(** The count of the transitions [last -> next] in the table. *)
Definition count_from (last next : ascii) (t : Transitions) : Z :=
  if (last =? "T")%char then if (next =? "T")%char then TT t else TX t
  else if (next =? "T")%char then XT t else XX t.

(** Strings over the two symbols. *)
Fixpoint only_TX (s : string) : Prop :=
  match s with
  | EmptyString => True
  | String c r => is_TX c /\ only_TX r
  end.

(** The number of transitions a table holds. *)
Definition table_total (t : Transitions) : Z := (TT t + TX t + XT t + XX t)%Z.

(** The number of continuations the N-gram counters hold. *)
Definition next_total (c : NextCounts) : Z := (nextT c + nextX c)%Z.

(** The other symbol: [c === 'T' ? 'X' : 'T']. *)
Definition opposite (c : ascii) : ascii := if (c =? "T")%char then "X"%char else "T"%char.

(** The two vote sums are finite, not negative, and add up to the total
    weight. *)
Definition tally_split (a : Tally) : Prop :=
  exists t x w,
    votesT a = Fin t /\ votesX a = Fin x /\ totalConfidence a = Fin w /\
    0 <= t /\ 0 <= x /\ t + x == w.

(** The accumulators of [ensemblePrediction] before the first vote. *)
Definition tally0 : Tally :=
  {| votesT := Fin 0; votesX := Fin 0; explains := []; totalConfidence := Fin 0 |}.

(** The ratio test of model 5 on [t] TAI sessions out of [n], as the program
    computes it: the percentage is printed, read back and compared with 60. *)
Definition high_share64 (t n : Z) : bool :=
  F64.gtb (F64.parseFloat (B64.percent t n)) F64.c60.

(** Whether that test agrees with [20000 t >= 12001 n] for every [t <= n],
    and for every [n] from 1 to [bound]. *)
Definition share_row_ok (n : nat) : bool :=
  forallb (fun t => Bool.eqb (high_share64 (Z.of_nat t) (Z.of_nat n))
                             (12001 * Z.of_nat n <=? 20000 * Z.of_nat t)%Z)
          (seq 0 (S n)).

Definition share_table_ok (bound : nat) : bool := forallb share_row_ok (seq 1 bound).

(** The stream of the draws [l], and 0 after them. *)
Definition draws (l : list F64.f64) : nat -> F64.f64 := fun k => nth k l F64.c0.

(** * Properties *)

(** ** Numbers *)

Lemma Qltb_lt (x y : Q) : Qltb x y = true <-> x < y.
Proof.
  unfold Qltb. rewrite negb_true_iff.
  split; intro H.
  - apply Qnot_le_lt. intro L. apply Qle_bool_iff in L. congruence.
  - destruct (Qle_bool y x) eqn:E; [|reflexivity].
    apply Qle_bool_iff in E. exfalso. exact (Qlt_not_le _ _ H E).
Qed.

Lemma Qltb_ge (x y : Q) : Qltb x y = false <-> y <= x.
Proof.
  unfold Qltb. rewrite negb_false_iff. apply Qle_bool_iff.
Qed.

Lemma div_pos (x y : Q) : 0 < y -> div (Fin x) (Fin y) = Fin (x / y).
Proof.
  intro H. unfold div.
  apply Qgt_alt in H. rewrite H. reflexivity.
Qed.

Lemma inject_Z_nonneg (z : Z) : (0 <= z)%Z -> 0 <= inject_Z z.
Proof. intro H. change 0 with (inject_Z 0). now rewrite <- Zle_Qle. Qed.

Lemma inject_Z_pos (z : Z) : (0 < z)%Z -> 0 < inject_Z z.
Proof. intro H. change 0 with (inject_Z 0). now rewrite <- Zlt_Qlt. Qed.

Lemma inject_Z_sum_zero (a b : Z) :
  (0 <= a)%Z -> (0 <= b)%Z -> inject_Z a + inject_Z b == 0 -> a = 0%Z.
Proof.
  intros Ha Hb H. unfold Qeq, Qplus, inject_Z in H. simpl in H. lia.
Qed.

Lemma of_Z_div_pos (a n : Z) :
  (0 < n)%Z -> div (of_Z a) (of_Z n) = Fin (inject_Z a / inject_Z n).
Proof.
  intro Hn. unfold of_Z. apply div_pos, inject_Z_pos, Hn.
Qed.

(** A count out of a positive total is a fraction between 0 and 1. *)
Lemma fraction_range (a n : Z) :
  (0 <= a <= n)%Z -> (0 < n)%Z -> 0 <= inject_Z a / inject_Z n <= 1.
Proof.
  intros Ha Hn.
  pose proof (inject_Z_nonneg a (proj1 Ha)) as A.
  pose proof (inject_Z_pos n Hn) as C.
  assert (B : inject_Z a <= inject_Z n) by (rewrite <- Zle_Qle; lia).
  split.
  - apply Qle_shift_div_l; lra.
  - apply Qle_shift_div_r; lra.
Qed.

(** ** [toFixed(2)] and [parseFloat] *)

Lemma span_digits_nondigit (s : string) :
  nondigit_start s -> span_digits s = (Decimal.Nil, s).
Proof.
  destruct s as [|c r]; simpl; intro H; [reflexivity|].
  rewrite H. reflexivity.
Qed.

Lemma span_digits_string_of_uint (d : Decimal.uint) (rest : string) :
  nondigit_start rest ->
  span_digits (NilEmpty.string_of_uint d ++ rest) = (d, rest).
Proof.
  intro H.
  induction d; simpl; try (rewrite IHd; reflexivity).
  apply span_digits_nondigit, H.
Qed.

Lemma parse_decimal_render (ip fp : Decimal.uint) (rest : string) :
  ip <> Decimal.Nil -> nondigit_start rest ->
  parse_decimal
    (NilEmpty.string_of_uint ip ++ "." ++ NilEmpty.string_of_uint fp ++ rest) =
  Fin (inject_Z (Z.of_N (N.of_uint ip)) +
       inject_Z (Z.of_N (N.of_uint fp)) /
       inject_Z (10 ^ Z.of_nat (uint_length fp))).
Proof.
  intros Hip Hrest. unfold parse_decimal.
  rewrite span_digits_string_of_uint by reflexivity.
  cbn [append].
  rewrite span_digits_string_of_uint by assumption.
  cbn [fst].
  destruct ip; try reflexivity. congruence.
Qed.

Lemma parseFloat_unsigned (ip : Decimal.uint) (rest : string) :
  ip <> Decimal.Nil ->
  parseFloat (NilEmpty.string_of_uint ip ++ rest) =
  parse_decimal (NilEmpty.string_of_uint ip ++ rest).
Proof.
  intro Hip. destruct ip; try reflexivity. congruence.
Qed.

Lemma to_uint_nonnil (n : N) : N.to_uint n <> Decimal.Nil.
Proof.
  destruct n as [|p]; [discriminate|].
  apply DecimalPos.Unsigned.to_uint_nonnil.
Qed.

Lemma of_uint_two_digits (a b : N) :
  (a < 10)%N -> (b < 10)%N ->
  N.of_uint (digit_cons a (digit_cons b Decimal.Nil)) = (10 * a + b)%N.
Proof.
  intros Ha Hb.
  assert (Ea : In a [0;1;2;3;4;5;6;7;8;9]%N).
  { simpl. lia. }
  assert (Eb : In b [0;1;2;3;4;5;6;7;8;9]%N).
  { simpl. lia. }
  simpl in Ea, Eb.
  repeat (destruct Ea as [<-|Ea]; [repeat (destruct Eb as [<-|Eb]; [reflexivity|]); contradiction|]).
  contradiction.
Qed.

Lemma uint_length_two_digits (a b : N) :
  uint_length (digit_cons a (digit_cons b Decimal.Nil)) = 2%nat.
Proof.
  unfold digit_cons.
  destruct a as [|[[[[]|[]|]|[[]|[]|]|]|[[[]|[]|]|[[]|[]|]|]|]];
  destruct b as [|[[[[]|[]|]|[[]|[]|]|]|[[[]|[]|]|[[]|[]|]|]|]]; reflexivity.
Qed.

Lemma string_app_assoc (a b c : string) : (a ++ b) ++ c = a ++ (b ++ c).
Proof.
  induction a as [|x a IH]; simpl; [reflexivity|]. now rewrite IH.
Qed.

(** Parsing what [toFixed(2)] printed gives back the hundredths. *)
Lemma parseFloat_render_hundredths (h : N) (rest : string) :
  nondigit_start rest ->
  exists v, parseFloat (render_hundredths h ++ rest) = Fin v /\
            v == inject_Z (Z.of_N h) / 100.
Proof.
  intro Hrest. unfold render_hundredths.
  eexists. split.
  - rewrite !string_app_assoc.
    rewrite parseFloat_unsigned by apply to_uint_nonnil.
    rewrite parse_decimal_render by (apply to_uint_nonnil || assumption).
    reflexivity.
  - rewrite DecimalN.Unsigned.of_to.
    rewrite of_uint_two_digits by (apply N.mod_lt; lia).
    rewrite uint_length_two_digits.
    assert (E : (Z.of_N h = 100 * Z.of_N (h / 100) + Z.of_N (10 * ((h / 10) mod 10) + h mod 10))%Z).
    { rewrite !N2Z.inj_add, !N2Z.inj_mul, !N2Z.inj_mod, !N2Z.inj_div.
      change (Z.of_N 10) with 10%Z. change (Z.of_N 100) with 100%Z.
      pose proof (N2Z.is_nonneg h).
      Z.to_euclidean_division_equations. lia. }
    change (inject_Z (10 ^ Z.of_nat 2)) with 100.
    set (x := Z.of_N (h / 100)) in *.
    set (y := Z.of_N (10 * ((h / 10) mod 10) + h mod 10)) in *.
    rewrite E, inject_Z_plus, inject_Z_mult. 
    change (inject_Z 100) with 100. field.
Qed.

Lemma toFixed2_nonneg (q : Q) :
  0 <= q -> toFixed2 (Fin q) = render_hundredths (round_hundredths q).
Proof.
  intro H. unfold toFixed2.
  apply Qltb_ge in H. now rewrite H.
Qed.

Lemma round_hundredths_spec (q : Q) :
  0 <= q ->
  let h := Z.of_N (round_hundredths q) in
  (0 <= h)%Z /\ inject_Z h <= q * 100 + 0.5 /\ q * 100 + 0.5 < inject_Z h + 1.
Proof.
  intros Hq h. subst h. unfold round_hundredths.
  assert (F : (0 <= Qfloor (q * 100 + 0.5))%Z).
  { change 0%Z with (Qfloor 0). apply Qfloor_resp_le. lra. }
  rewrite Z2N.id by assumption.
  split; [assumption|]. split.
  - apply Qfloor_le.
  - pose proof (Qlt_floor (q * 100 + 0.5)) as L.
    rewrite inject_Z_plus in L. exact L.
Qed.

(** The number a formatted percentage reads back as. *)
Lemma parseFloat_toFixed2 (q : Q) (rest : string) :
  0 <= q -> nondigit_start rest ->
  exists (v : Q) (h : Z),
    parseFloat (toFixed2 (Fin q) ++ rest) = Fin v /\
    v == inject_Z h / 100 /\ (0 <= h)%Z /\
    inject_Z h <= q * 100 + 0.5 /\ q * 100 + 0.5 < inject_Z h + 1.
Proof.
  intros Hq Hrest.
  rewrite toFixed2_nonneg by assumption.
  destruct (parseFloat_render_hundredths (round_hundredths q) rest Hrest)
    as (v & Hv & Ev).
  exists v, (Z.of_N (round_hundredths q)).
  split; [exact Hv|]. split; [exact Ev|].
  apply round_hundredths_spec, Hq.
Qed.

Example toFixed2_two_thirds : toFixed2 (Fin (2 # 3)) = "0.67".
Proof. reflexivity. Qed.

Example toFixed2_hundred : toFixed2 (Fin 100) = "100.00".
Proof. reflexivity. Qed.

Example toFixed2_small_negative : toFixed2 (Fin (- (1 # 1000))) = "-0.00".
Proof. reflexivity. Qed.

Example parseFloat_percentage : parseFloat "66.67%" = Fin (66 + 67 / 100).
Proof. reflexivity. Qed.

Example parseFloat_not_a_number : parseFloat "NaN%" = NaN.
Proof. reflexivity. Qed.

(** ** Well-formed votes *)

Lemma symbol_TX (s : Session) : is_TX (symbol s).
Proof.
  unfold symbol, getPatternChar, is_TX.
  destruct (resultTruyenThong s =? "TAI")%string; auto.
Qed.

Ltac wf_vote :=
  unfold well_formed, is_TX, ret, bind; simpl;
  split;
  [ repeat match goal with
           | |- context [if ?b then _ else _] => destruct b
           end; auto
  | eexists; split; [reflexivity | lra] ].

Lemma model1_well_formed (rnd : nat -> Q) (pattern : string) (i : nat) :
  well_formed (fst (model1PatternAnalysis rnd pattern i)).
Proof.
  unfold model1PatternAnalysis.
  repeat match goal with
         | |- context [if ?b then ret _ else _] => destruct b
         end.
  all: unfold Math_random; wf_vote.
Qed.

Lemma model2_well_formed (sessions : list Session) :
  well_formed (model2Probability sessions).
Proof.
  unfold model2Probability.
  destruct (gtb _ (Fin 0.7)); [wf_vote|].
  destruct (ltb _ (Fin 0.3)); wf_vote.
Qed.

(** *** The Markov model *)

Lemma bump_transition_counted (key : string) (t : Transitions) :
  counted t -> counted (bump_transition key t).
Proof.
  unfold counted, bump_transition. intros (A & B & C & D).
  repeat match goal with
         | |- context [if ?b then _ else _] => destruct b
         end; simpl; lia.
Qed.

Lemma count_transitions_counted (sessions : list Session) (t : Transitions) :
  counted t -> counted (count_transitions sessions t).
Proof.
  revert t. induction sessions as [|a l IH]; intros t Ht; [exact Ht|].
  destruct l as [|b l']; [exact Ht|].
  change (counted (count_transitions (b :: l')
            (bump_transition (key2 (symbol a) (symbol b)) t))).
  apply IH, bump_transition_counted, Ht.
Qed.

Lemma count_from_nonneg (last next : ascii) (t : Transitions) :
  counted t -> (0 <= count_from last next t)%Z.
Proof.
  intros (A & B & C & D). unfold count_from.
  destruct (last =? "T")%char, (next =? "T")%char; assumption.
Qed.

(** [pT] in terms of the two counts of the transitions out of [last]. *)
Lemma markov_pT_counts (last : ascii) (t : Transitions) :
  is_TX last ->
  markov_pT last t =
  or (div (of_Z (count_from last "T" t))
          (add (of_Z (count_from last "T" t)) (of_Z (count_from last "X" t))))
     (Fin 0.5).
Proof. intros [-> | ->]; reflexivity. Qed.

(** What [a / (a + b) || 0.5] evaluates to, for two counters. *)
Lemma ratio_or_half_zero (b : Z) :
  or (div (of_Z 0) (add (of_Z 0) (of_Z b))) (Fin 0.5) = Fin 0.5.
Proof.
  unfold of_Z, add, div.
  destruct (inject_Z 0 + inject_Z b ?= 0); reflexivity.
Qed.

Lemma ratio_or_half_pos (a b : Z) :
  (0 < a)%Z -> (0 <= b)%Z ->
  or (div (of_Z a) (add (of_Z a) (of_Z b))) (Fin 0.5) =
  Fin (inject_Z a / (inject_Z a + inject_Z b)).
Proof.
  intros Ha Hb. unfold of_Z, add.
  pose proof (inject_Z_pos a Ha) as A.
  pose proof (inject_Z_nonneg b Hb) as B.
  rewrite div_pos by lra.
  unfold or, truthy.
  destruct (Qeq_bool _ 0) eqn:E; [|reflexivity].
  apply Qeq_bool_iff in E. exfalso.
  assert (P : 0 < inject_Z a / (inject_Z a + inject_Z b)).
  { apply Qlt_shift_div_l; lra. }
  lra.
Qed.

Lemma ratio_range (a b : Z) :
  (0 < a)%Z -> (0 <= b)%Z ->
  0 < inject_Z a / (inject_Z a + inject_Z b) <= 1.
Proof.
  intros Ha Hb.
  pose proof (inject_Z_pos a Ha) as A.
  pose proof (inject_Z_nonneg b Hb) as B.
  split.
  - apply Qlt_shift_div_l; lra.
  - apply Qle_shift_div_r; lra.
Qed.

(** With no transition from [last] to T the probability is the fallback 0.5,
    whatever the number of transitions from [last] to X. *)
Lemma markov_pT_no_T (last : ascii) (t : Transitions) :
  is_TX last -> count_from last "T" t = 0%Z -> markov_pT last t = Fin 0.5.
Proof.
  intros H E. rewrite markov_pT_counts, E by exact H.
  apply ratio_or_half_zero.
Qed.

(** With a transition from [last] to T the probability is the quotient of
    the counts. *)
Lemma markov_pT_some_T (last : ascii) (t : Transitions) :
  is_TX last -> counted t -> (0 < count_from last "T" t)%Z ->
  markov_pT last t =
  Fin (inject_Z (count_from last "T" t) /
       (inject_Z (count_from last "T" t) + inject_Z (count_from last "X" t))).
Proof.
  intros H Ht Hpos. rewrite markov_pT_counts by exact H.
  apply ratio_or_half_pos; [exact Hpos | apply count_from_nonneg, Ht].
Qed.

Lemma markov_pT_range (last : ascii) (t : Transitions) :
  is_TX last -> counted t ->
  exists p, markov_pT last t = Fin p /\ 0 < p <= 1.
Proof.
  intros H Ht.
  pose proof (count_from_nonneg last "T" t Ht) as A.
  pose proof (count_from_nonneg last "X" t Ht) as B.
  destruct (Z.eq_dec (count_from last "T" t) 0) as [E | E].
  - rewrite markov_pT_no_T by assumption. eexists; split; [reflexivity | lra].
  - rewrite markov_pT_some_T by (assumption || lia).
    eexists; split; [reflexivity|]. apply ratio_range; lia.
Qed.

(** With no transition out of [last] at all, the denominator is zero and the
    probability is the fallback 0.5. *)
Lemma markov_fallback (last : ascii) (t : Transitions) (z : Q) :
  is_TX last -> counted t ->
  add (transition (key2 last "T") t) (transition (key2 last "X") t) = Fin z ->
  z == 0 ->
  markov_pT last t = Fin 0.5.
Proof.
  intros H Ht E Hz. apply markov_pT_no_T; [exact H|].
  pose proof (count_from_nonneg last "T" t Ht) as A.
  pose proof (count_from_nonneg last "X" t Ht) as B.
  apply (inject_Z_sum_zero _ (count_from last "X" t)); try assumption.
  destruct H as [-> | ->]; injection E as <-; exact Hz.
Qed.

Lemma counted_zero : counted {| TT := 0; TX := 0; XT := 0; XX := 0 |}.
Proof. unfold counted; simpl; lia. Qed.

Lemma model3_well_formed (sessions : list Session) :
  sessions <> [] ->
  exists v, model3Markov sessions = Some v /\ well_formed v.
Proof.
  intro Hne. destruct sessions as [|s0 rest]; [congruence|].
  unfold model3Markov.
  destruct (markov_pT_range (symbol s0) (transitions_of (s0 :: rest))
              (symbol_TX s0) (count_transitions_counted _ _ counted_zero))
    as (p & Ep & Hp).
  rewrite Ep. eexists; split; [reflexivity|].
  unfold well_formed, is_TX; cbn [prediction confidence gtb sub add neg].
  destruct (Qltb 0.5 p) eqn:E.
  - split; [auto|]. exists p. split; [reflexivity|].
    apply Qltb_lt in E. lra.
  - split; [auto|]. eexists. split; [reflexivity|].
    apply Qltb_ge in E. lra.
Qed.

(** *** The N-gram model *)

Lemma bump_next_tallied (next : option ascii) (c : NextCounts) :
  tallied c -> tallied (bump_next next c).
Proof.
  unfold tallied, bump_next. intros (A & B).
  destruct next as [k|]; [|lia].
  destruct (k =? "T")%char; [simpl; lia|].
  destruct (k =? "X")%char; simpl; lia.
Qed.

Lemma ngram_scan_tallied (n : nat) (lastN h : string) (c : NextCounts) :
  tallied c -> tallied (ngram_scan n lastN h c).
Proof.
  revert c. induction h as [|x h IH]; intros c Hc; [exact Hc|].
  cbn [ngram_scan]. apply IH.
  destruct (_ && _); [apply bump_next_tallied|]; exact Hc.
Qed.

Lemma model4_well_formed (pattern : string) (sessions : list Session) :
  well_formed (model4NGram pattern sessions).
Proof.
  unfold model4NGram.
  set (c := ngram_counts pattern sessions).
  assert (Hc : tallied c).
  { apply ngram_scan_tallied. unfold tallied; simpl; lia. }
  destruct Hc as (A & B).
  destruct (nextT c + nextX c =? 0)%Z eqn:E; [wf_vote|].
  apply Z.eqb_neq in E.
  rewrite of_Z_div_pos by lia.
  pose proof (fraction_range (nextT c) (nextT c + nextX c)) as R.
  set (p := inject_Z (nextT c) / inject_Z (nextT c + nextX c)) in *.
  assert (Hp : 0 <= p <= 1) by (apply R; lia).
  unfold well_formed, is_TX; cbn [prediction confidence gtb sub add neg max].
  split; [destruct (Qltb 0.5 p); auto|].
  destruct (Qltb (1 + - p) p) eqn:F.
  - exists p. split; [reflexivity|]. apply Qltb_lt in F. lra.
  - eexists. split; [reflexivity|]. apply Qltb_ge in F. lra.
Qed.

(** *** The heuristic model *)

Lemma model5_well_formed (pattern : string) (ratios : Ratios) (v : Vote) :
  model5Heuristic pattern ratios = Some v -> well_formed v.
Proof.
  unfold model5Heuristic, match_streak.
  destruct pattern as [|c r]; [discriminate|].
  destruct ((c =? "T")%char || (c =? "X")%char) eqn:E; [|discriminate].
  cbn [get].
  assert (Hc : is_TX c).
  { apply orb_true_iff in E. destruct E as [E | E]; apply Ascii.eqb_eq in E;
      unfold is_TX; auto. }
  destruct (4 <=? _)%nat.
  { intro H; injection H as <-. wf_vote. }
  destruct (gtb _ _).
  { intro H; injection H as <-. wf_vote. }
  intro H; injection H as <-.
  split; [exact Hc|]. eexists; split; [reflexivity|]. simpl. lra.
Qed.

Lemma model5_returns (c : ascii) (r : string) (ratios : Ratios) :
  is_TX c -> exists v, model5Heuristic (String c r) ratios = Some v.
Proof.
  intro Hc. unfold model5Heuristic, match_streak. cbn [get].
  assert (E : ((c =? "T")%char || (c =? "X")%char) = true).
  { destruct Hc as [-> | ->]; reflexivity. }
  rewrite E.
  destruct (4 <=? _)%nat; [eexists; reflexivity|].
  destruct (gtb _ _); eexists; reflexivity.
Qed.

(** ** The sort of the handler *)

Lemma insert_desc_perm (x : Session) (l : list Session) :
  Permutation (x :: l) (insert_desc x l).
Proof.
  induction l as [|y l IH]; simpl; [reflexivity|].
  destruct (id y <=? id x)%Z; [reflexivity|].
  rewrite perm_swap. now constructor.
Qed.

Lemma sort_desc_perm (l : list Session) : Permutation l (sort_desc l).
Proof.
  induction l as [|x l IH]; simpl; [constructor|].
  rewrite <- insert_desc_perm. now constructor.
Qed.

Lemma insert_desc_sorted (x : Session) (l : list Session) :
  StronglySorted desc l -> StronglySorted desc (insert_desc x l).
Proof.
  induction 1 as [|y l Hl IH Hy]; simpl.
  - repeat constructor.
  - destruct (id y <=? id x)%Z eqn:E.
    + apply Z.leb_le in E.
      constructor; [constructor; assumption|].
      constructor; [exact E|].
      rewrite Forall_forall in *. intros z Hz. specialize (Hy z Hz).
      unfold desc in *. lia.
    + apply Z.leb_gt in E.
      constructor; [exact IH|].
      rewrite Forall_forall in *. intros z Hz.
      apply (Permutation_in _ (Permutation_sym (insert_desc_perm x l))) in Hz.
      destruct Hz as [<- | Hz]; [unfold desc; lia | auto].
Qed.

Lemma sort_desc_sorted (l : list Session) : StronglySorted desc (sort_desc l).
Proof.
  induction l as [|x l IH]; simpl; [constructor|].
  now apply insert_desc_sorted.
Qed.

Lemma sort_desc_length (l : list Session) : length (sort_desc l) = length l.
Proof. symmetry. apply Permutation_length, sort_desc_perm. Qed.

Lemma sort_desc_nonempty (l : list Session) : l <> [] -> sort_desc l <> [].
Proof.
  intros H E. apply H.
  apply length_zero_iff_nil. rewrite <- sort_desc_length, E. reflexivity.
Qed.


(** ** The pattern *)

Lemma getRecentPatterns_unfold (sessions : list Session) :
  getRecentPatterns sessions 5 = string_of_list_ascii (rev (map symbol sessions)).
Proof.
  unfold getRecentPatterns. f_equal.
  apply firstn_all2. lia.
Qed.

Lemma string_of_list_ascii_length (l : list ascii) :
  String.length (string_of_list_ascii l) = length l.
Proof.
  induction l as [|c l IH]; simpl; [reflexivity|]. now rewrite IH.
Qed.

Lemma getRecentPatterns_length (sessions : list Session) :
  String.length (getRecentPatterns sessions 5) = length sessions.
Proof.
  rewrite getRecentPatterns_unfold, string_of_list_ascii_length.
  now rewrite length_rev, length_map.
Qed.

(** The first character of the pattern is the symbol of the last element of
    [sessions]. *)
Lemma getRecentPatterns_head (sessions : list Session) (s : Session) :
  get 0 (getRecentPatterns (sessions ++ [s]) 5) = Some (symbol s).
Proof.
  rewrite getRecentPatterns_unfold, map_app, rev_app_distr. reflexivity.
Qed.

Lemma getRecentPatterns_starts_TX (sessions : list Session) :
  sessions <> [] ->
  exists c r, getRecentPatterns sessions 5 = String c r /\ is_TX c.
Proof.
  intro Hne.
  destruct (exists_last Hne) as (l & s & ->).
  rewrite getRecentPatterns_unfold, map_app, rev_app_distr.
  simpl. eexists _, _. split; [reflexivity | apply symbol_TX].
Qed.

(** ** The aggregator *)

Lemma tally_ok_weaken (lo lo' : Q) (a : Tally) :
  lo' <= lo -> tally_ok lo a -> tally_ok lo' a.
Proof.
  intros L (t & x & w & ? & ? & ? & ? & ? & ?).
  exists t, x, w. repeat split; try tauto; lra.
Qed.

Lemma cast_ok (lo c : Q) (pred : ascii) (text : string) (a : Tally) :
  0 <= c -> tally_ok lo a -> tally_ok (lo + c) (cast pred (Fin c) text a).
Proof.
  intros Hc (t & x & w & Et & Ex & Ew & Ht & Hx & Hw).
  unfold tally_ok, cast; cbn [votesT votesX totalConfidence].
  rewrite Et, Ex, Ew.
  destruct (pred =? "T")%char, (pred =? "X")%char; cbn [add];
    eexists _, _, _; (split; [reflexivity|]); (split; [reflexivity|]);
    (split; [reflexivity|]); lra.
Qed.

Lemma cast_models_ok (lo : Q) (models : list Vote) (a : Tally) :
  Forall well_formed models -> tally_ok lo a ->
  tally_ok lo (fold_left cast_model models a).
Proof.
  intro F. revert a. induction F as [|m models Hm _ IH]; intros a Ha; [exact Ha|].
  cbn [fold_left]. apply IH.
  destruct Hm as (_ & q & Eq & Hq).
  unfold cast_model. rewrite Eq.
  apply (tally_ok_weaken (lo + q)); [lra|].
  apply cast_ok; [lra | exact Ha].
Qed.

Lemma synthetic_confidence (rnd : nat -> Q) (start i : nat) :
  unit_draws rnd ->
  exists c, confidence (fst (synthetic rnd start i)) = Fin c /\ 0.6 <= c < 0.8.
Proof.
  intro U. unfold synthetic, bind, Math_random, ret; cbn.
  eexists; split; [reflexivity|].
  pose proof (U (S i)). lra.
Qed.

Lemma synthetic_position (rnd : nat -> Q) (start i : nat) :
  snd (synthetic rnd start i) = (i + 2)%nat.
Proof.
  unfold synthetic, bind, Math_random, ret; cbn. lia.
Qed.

Lemma synthetic_loop_step (rnd : nat -> Q) (count start : nat) (a : Tally) (i : nat) :
  synthetic_loop rnd (S count) start a i =
  synthetic_loop rnd count (S start)
    (cast_model a (fst (synthetic rnd start i))) (i + 2)%nat.
Proof.
  cbn [synthetic_loop]. unfold bind at 1.
  rewrite (surjective_pairing (synthetic rnd start i)), synthetic_position.
  reflexivity.
Qed.

Lemma synthetic_loop_ok (rnd : nat -> Q) (count start : nat) (a : Tally) (i : nat) (lo : Q) :
  unit_draws rnd -> tally_ok lo a ->
  tally_ok lo (fst (synthetic_loop rnd count start a i)).
Proof.
  intro U. revert start a i.
  induction count as [|count IH]; intros start a i Ha; [exact Ha|].
  rewrite synthetic_loop_step. apply IH.
  destruct (synthetic_confidence rnd start i U) as (c & Ec & Hc).
  unfold cast_model. rewrite Ec.
  apply (tally_ok_weaken (lo + c)); [lra|].
  apply cast_ok; [lra | exact Ha].
Qed.

Lemma synthetic_loop_weight (rnd : nat -> Q) (count start : nat) (a : Tally) (i : nat) (lo : Q) :
  unit_draws rnd -> tally_ok lo a ->
  tally_ok (lo + 0.6) (fst (synthetic_loop rnd (S count) start a i)).
Proof.
  intros U Ha. rewrite synthetic_loop_step.
  apply synthetic_loop_ok; [exact U|].
  destruct (synthetic_confidence rnd start i U) as (c & Ec & Hc).
  unfold cast_model. rewrite Ec.
  apply (tally_ok_weaken (lo + c)); [lra|].
  apply cast_ok; [lra | exact Ha].
Qed.

Lemma synthetic_loop_position (rnd : nat -> Q) (count start : nat) (a : Tally) (i : nat) :
  snd (synthetic_loop rnd count start a i) = (i + 2 * count)%nat.
Proof.
  revert start a i. induction count as [|count IH]; intros start a i.
  - cbn. lia.
  - rewrite synthetic_loop_step, IH. lia.
Qed.

Lemma tally_zero : tally_ok 0 {| votesT := Fin 0; votesX := Fin 0; explains := [];
                                 totalConfidence := Fin 0 |}.
Proof.
  exists 0, 0, 0. cbn. repeat split; lra.
Qed.

(** The percentage a well-formed tally is reported with. *)
Lemma tally_percentage (a : Tally) (lo : Q) :
  0 < lo -> tally_ok lo a ->
  exists c,
    parseFloat (toFixed2 (mul (div (max (votesT a) (votesX a)) (totalConfidence a))
                              (Fin 100)) ++ "%") = Fin c /\
    0 <= c <= 100.
Proof.
  intros Hlo (t & x & w & -> & -> & -> & Ht & Hx & Hw).
  assert (W : 0 < w) by lra.
  assert (E : exists m, max (Fin t) (Fin x) = Fin m /\ 0 <= m <= w).
  { cbn [max gtb]. destruct (Qltb x t); eexists; split; try reflexivity; lra. }
  destruct E as (m & -> & Hm).
  rewrite div_pos by exact W. cbn [mul].
  assert (R : 0 <= m / w <= 1).
  { split; [apply Qle_shift_div_l | apply Qle_shift_div_r]; lra. }
  destruct (parseFloat_toFixed2 (m / w * 100) "%") as (v & h & Ev & Evh & H0 & Hle & _);
    [lra | reflexivity |].
  exists v. split; [exact Ev|].
  assert (H1 : (h < 10001)%Z).
  { rewrite Zlt_Qlt. change (inject_Z 10001) with 10001. lra. }
  pose proof (inject_Z_nonneg h H0) as A.
  assert (B : inject_Z h <= 10000) by (change 10000 with (inject_Z 10000); rewrite <- Zle_Qle; lia).
  rewrite Evh. split.
  - apply Qle_shift_div_l; lra.
  - apply Qle_shift_div_r; lra.
Qed.

Lemma ensemblePrediction_unfold (rnd : nat -> Q) (models : list Vote) (i : nat) :
  let a := fst (synthetic_loop rnd 5 0
                  (fold_left cast_model models
                     {| votesT := Fin 0; votesX := Fin 0; explains := [];
                        totalConfidence := Fin 0 |}) i) in
  ensemblePrediction rnd models i =
  ({| Ensemble.du_doan := if gtb (votesT a) (votesX a) then "TAI" else "XIU";
      Ensemble.do_tin_cay :=
        toFixed2 (mul (div (max (votesT a) (votesX a)) (totalConfidence a)) (Fin 100))
        ++ "%";
      Ensemble.giai_thich :=
        "GIẢI THÍCH AI TỔNG HỢP: Phân tích từ 10 AI (5 model chính + 5 bổ sung). Mẫu cầu gần nhất: "
        ++ join " | " (explains a) ++ " Kết quả chính: " ++
        (if gtb (votesT a) (votesX a) then "TAI" else "XIU") ++
        " dựa trên phiếu bầu và trọng số." |},
   (i + 10)%nat).
Proof.
  intro a. unfold ensemblePrediction, bind.
  rewrite (surjective_pairing (synthetic_loop rnd 5 0 _ i)).
  rewrite synthetic_loop_position. reflexivity.
Qed.

(** ** The rolling window and the fallbacks *)

Lemma filter_length_bound {A} (f : A -> bool) (l : list A) :
  (length (filter f l) <= length l)%nat.
Proof.
  induction l as [|x l IH]; simpl; [lia|].
  destruct (f x); simpl; lia.
Qed.

Lemma window_ratio_finite (sessions : list Session) :
  sessions <> [] -> exists q, window_ratio sessions = Fin q /\ 0 <= q <= 1.
Proof.
  intro Hne. unfold window_ratio.
  set (w := firstn 20 sessions).
  assert (Hw : (0 < length w)%nat).
  { subst w. destruct sessions; [congruence | simpl; lia]. }
  pose proof (filter_length_bound is_tai w) as Hf.
  rewrite of_Z_div_pos by lia.
  eexists; split; [reflexivity|].
  apply fraction_range; lia.
Qed.

Lemma predict_unfold (rnd : nat -> Q) (data_list : list Session)
      (latest : Session) (rest : list Session) (i : nat)
      (model3 model5 : Vote) :
  let sessions := latest :: rest in
  let patternStr := getRecentPatterns sessions 5 in
  let ratios := calculateRatios sessions in
  let m1 := model1PatternAnalysis rnd patternStr i in
  let models := [fst m1; model2Probability sessions; model3;
                 model4NGram patternStr sessions; model5] in
  let e := ensemblePrediction rnd models (snd m1) in
  sort_desc data_list = sessions ->
  model3Markov sessions = Some model3 ->
  model5Heuristic patternStr ratios = Some model5 ->
  predict rnd data_list i =
  (OutputJson
     {| Output.session := id latest;
        Output.dice := dices latest;
        Output.total := point latest;
        Output.result := resultTruyenThong latest;
        Output.next_session := F64.add (F64.of_Z (id latest)) F64.c1;
        Output.du_doan := Ensemble.du_doan (fst e);
        Output.do_tin_cay := Ensemble.do_tin_cay (fst e);
        Output.giai_thich := Ensemble.giai_thich (fst e);
        Output.pattern := patternStr;
        Output.ty_le := ratios;
        Output.id := "Việt Anh Bá Sàn Tool" |},
   snd e).
Proof.
  intros sessions patternStr ratios m1 models e Es E3 E5.
  subst e models m1 ratios patternStr sessions.
  unfold predict. rewrite Es. unfold bind, ret.
  destruct (model1PatternAnalysis rnd _ i) as [v1 j]. cbn [fst snd].
  rewrite E3, E5.
  destruct (ensemblePrediction rnd _ j) as [e k]. reflexivity.
Qed.

(** C2: on every non-empty session history, with draws in the range of
    [Math.random()], [predict] answers with an output (no model throws, the
    [catch] answer is not taken) whose prediction is TAI (HIGH) or XIU (LOW)
    and whose confidence reads back as a percentage between 0 and 100.  The
    division hazards do not fail: the rolling window of a non-empty history is
    not empty and its ratio is a finite number; with no transition out of the
    last symbol the Markov probability is the fallback 0.5; with no 4-gram
    match the N-gram model votes T with confidence 0.5. *)
Theorem predict_total (rnd : nat -> Q) (data_list : list Session) (i : nat) :
  unit_draws rnd -> data_list <> [] ->
  (exists out j,
      predict rnd data_list i = (OutputJson out, j) /\
      (Output.du_doan out = "TAI" \/ Output.du_doan out = "XIU") /\
      exists c, parseFloat (Output.do_tin_cay out) = Fin c /\ 0 <= c <= 100) /\
  (exists q, window_ratio (sort_desc data_list) = Fin q /\ 0 <= q <= 1) /\
  (forall last t z,
      is_TX last -> counted t ->
      add (transition (key2 last "T") t) (transition (key2 last "X") t) = Fin z ->
      z == 0 -> markov_pT last t = Fin 0.5) /\
  (forall pattern sessions,
      (nextT (ngram_counts pattern sessions) +
       nextX (ngram_counts pattern sessions) = 0)%Z ->
      prediction (model4NGram pattern sessions) = "T"%char /\
      confidence (model4NGram pattern sessions) = Fin 0.5).
Proof.
  intros U Hne.
  split; [|split; [|split]].
  - pose proof (sort_desc_nonempty _ Hne) as Hs.
    destruct (sort_desc data_list) as [|latest rest] eqn:Es; [congruence|].
    destruct (model3_well_formed (latest :: rest) Hs) as (v3 & E3 & W3).
    destruct (getRecentPatterns_starts_TX (latest :: rest) Hs) as (c & r & Ep & Hc).
    destruct (model5_returns c r (calculateRatios (latest :: rest)) Hc) as (v5 & E5).
    rewrite <- Ep in E5.
    pose proof (model5_well_formed _ _ _ E5) as W5.
    rewrite (predict_unfold rnd data_list latest rest i v3 v5 Es E3 E5).
    eexists _, _. split; [reflexivity|].
    cbn [Output.du_doan Output.do_tin_cay].
    rewrite ensemblePrediction_unfold.
    cbn [fst Ensemble.du_doan Ensemble.do_tin_cay].
    split.
    + destruct (gtb _ _); auto.
    + apply (tally_percentage _ (0 + 0.6)); [lra|].
      apply synthetic_loop_weight; [exact U|].
      apply cast_models_ok; [|apply tally_zero].
      repeat apply Forall_cons; try apply Forall_nil.
      * apply model1_well_formed.
      * apply model2_well_formed.
      * exact W3.
      * apply model4_well_formed.
      * exact W5.
  - apply window_ratio_finite, sort_desc_nonempty, Hne.
  - apply markov_fallback.
  - intros pattern sessions E. unfold model4NGram.
    rewrite E. cbn. split; reflexivity.
Qed.

Lemma predict_total_witness :
  unit_draws (fun _ => 0.5) /\
  [mk 1 "TAI"; mk 2 "XIU"] <> [] /\
  exists out j,
    predict (fun _ => 0.5) [mk 1 "TAI"; mk 2 "XIU"] 0%nat = (OutputJson out, j) /\
    (Output.du_doan out = "TAI" \/ Output.du_doan out = "XIU") /\
    exists c, parseFloat (Output.do_tin_cay out) = Fin c /\ 0 <= c <= 100.
Proof.
  assert (U : unit_draws (fun _ : nat => 0.5)).
  { intro k. split; [unfold Qle | unfold Qlt]; simpl; lia. }
  assert (N : [mk 1 "TAI"; mk 2 "XIU"] <> []) by discriminate.
  split; [exact U|]. split; [exact N|].
  exact (proj1 (predict_total (fun _ => 0.5) [mk 1 "TAI"; mk 2 "XIU"] 0%nat U N)).
Defined.

(** C10: on every non-empty array of sessions, with its pattern and ratios as
    the handler computes them and any stream of draws, each of the five models
    returns a vote (models 3 and 5 do not throw) whose prediction is T or X
    and whose confidence is a finite number between 0.5 and 1. *)
Theorem models_well_formed (rnd : nat -> Q) (sessions : list Session) (i : nat) :
  sessions <> [] ->
  let pattern := getRecentPatterns sessions 5 in
  let ratios := calculateRatios sessions in
  well_formed (fst (model1PatternAnalysis rnd pattern i)) /\
  well_formed (model2Probability sessions) /\
  (exists v, model3Markov sessions = Some v /\ well_formed v) /\
  well_formed (model4NGram pattern sessions) /\
  (exists v, model5Heuristic pattern ratios = Some v /\ well_formed v).
Proof.
  intros Hne pattern ratios.
  split; [apply model1_well_formed|].
  split; [apply model2_well_formed|].
  split; [apply model3_well_formed, Hne|].
  split; [apply model4_well_formed|].
  destruct (getRecentPatterns_starts_TX sessions Hne) as (c & r & Ep & Hc).
  destruct (model5_returns c r ratios Hc) as (v & Ev).
  exists v. subst pattern. rewrite Ep. split; [exact Ev|].
  exact (model5_well_formed _ _ _ Ev).
Qed.

Lemma models_well_formed_witness :
  let sessions := [mk 3 "TAI"; mk 2 "XIU"; mk 1 "TAI"] in
  sessions <> [] /\
  well_formed (fst (model1PatternAnalysis (fun _ => 0.5)
                      (getRecentPatterns sessions 5) 0%nat)) /\
  well_formed (model2Probability sessions) /\
  (exists v, model3Markov sessions = Some v /\ well_formed v) /\
  well_formed (model4NGram (getRecentPatterns sessions 5) sessions) /\
  (exists v, model5Heuristic (getRecentPatterns sessions 5)
               (calculateRatios sessions) = Some v /\ well_formed v).
Proof.
  intro sessions.
  assert (N : sessions <> []) by discriminate.
  split; [exact N|].
  exact (models_well_formed (fun _ => 0.5) sessions 0%nat N).
Defined.

(** ** Ratios *)




(** C7: with zero sessions [predict] answers with the error
    [No sessions found] and nothing else: the answer carries no prediction,
    it is not the answer of the [catch] block that a model throwing on the
    empty array would cause ([model3Markov] and [model5Heuristic] do throw
    there), and no draw is taken from the random source, whereas a run of the
    aggregator always takes ten. *)
Theorem predict_empty (rnd : nat -> Q) (i : nat) :
  predict rnd [] i = (ErrorJson 200 "No sessions found", i) /\
  fst (predict rnd [] i) <> failed /\
  (forall out, fst (predict rnd [] i) <> OutputJson out) /\
  model3Markov [] = None /\
  (forall ratios, model5Heuristic (getRecentPatterns [] 5) ratios = None) /\
  (forall models k, snd (ensemblePrediction rnd models k) = (k + 10)%nat).
Proof.
  split; [reflexivity|].
  split; [discriminate|].
  split; [discriminate|].
  split; [reflexivity|].
  split; [reflexivity|].
  intros models k. rewrite ensemblePrediction_unfold. reflexivity.
Qed.

(** ** The decision of the aggregator, stated over the list of voters *)

Lemma synthetic_loop_voters (rnd : nat -> Q) (count start : nat) (a : Tally) (i : nat) :
  fst (synthetic_loop rnd count start a i) =
  fold_left cast_model (synthetic_voters rnd count start i) a.
Proof.
  revert start a i. induction count as [|count IH]; intros start a i; [reflexivity|].
  rewrite synthetic_loop_step, IH. reflexivity.
Qed.

Lemma cast_models_votes (c : ascii) (proj : Tally -> num) (voters : list Vote) (a : Tally) :
  (forall pred conf text b,
      proj (cast pred conf text b) =
      if (pred =? c)%char then add (proj b) conf else proj b) ->
  proj (fold_left cast_model voters a) =
  fold_left add
    (map confidence (filter (fun v => (prediction v =? c)%char) voters)) (proj a).
Proof.
  intro P. revert a. induction voters as [|v voters IH]; intro a; [reflexivity|].
  cbn [fold_left filter]. rewrite IH. unfold cast_model at 1. rewrite P.
  destruct (prediction v =? c)%char; reflexivity.
Qed.

Lemma cast_models_total (voters : list Vote) (a : Tally) :
  totalConfidence (fold_left cast_model voters a) =
  fold_left add (map confidence voters) (totalConfidence a).
Proof.
  revert a. induction voters as [|v voters IH]; intro a; [reflexivity|].
  cbn [fold_left map]. rewrite IH. reflexivity.
Qed.

(** ** Determinism *)

Lemma agree_sub (rnd1 rnd2 : nat -> Q) (i n j m : nat) :
  (i <= j)%nat -> (j + m <= i + n)%nat ->
  agree rnd1 rnd2 i n -> agree rnd1 rnd2 j m.
Proof.
  intros A B H k Hk. apply H. lia.
Qed.

Lemma model1_agree (rnd1 rnd2 : nat -> Q) (pattern : string) (i : nat) :
  agree rnd1 rnd2 i 1 ->
  model1PatternAnalysis rnd1 pattern i = model1PatternAnalysis rnd2 pattern i.
Proof.
  intro H. unfold model1PatternAnalysis.
  repeat match goal with
         | |- context [if ?b then ret _ else _] => destruct b; [reflexivity|]
         end.
  unfold bind, Math_random, ret. rewrite (H i) by lia. reflexivity.
Qed.

Lemma model1_position (rnd : nat -> Q) (pattern : string) (i : nat) :
  (i <= snd (model1PatternAnalysis rnd pattern i) <= i + 1)%nat.
Proof.
  unfold model1PatternAnalysis.
  repeat match goal with
         | |- context [if ?b then ret _ else _] => destruct b; [cbn; lia|]
         end.
  cbn. lia.
Qed.

Lemma synthetic_agree (rnd1 rnd2 : nat -> Q) (start i : nat) :
  agree rnd1 rnd2 i 2 -> synthetic rnd1 start i = synthetic rnd2 start i.
Proof.
  intro H. unfold synthetic, bind, Math_random, ret.
  rewrite (H i), (H (S i)) by lia. reflexivity.
Qed.

Lemma synthetic_loop_agree (rnd1 rnd2 : nat -> Q) (count start : nat) (a : Tally) (i : nat) :
  agree rnd1 rnd2 i (2 * count) ->
  synthetic_loop rnd1 count start a i = synthetic_loop rnd2 count start a i.
Proof.
  revert start a i. induction count as [|count IH]; intros start a i H; [reflexivity|].
  rewrite !synthetic_loop_step.
  rewrite (synthetic_agree rnd1 rnd2 start i) by (eapply agree_sub; [| |exact H]; lia).
  apply IH. eapply agree_sub; [| |exact H]; lia.
Qed.

Lemma ensemblePrediction_agree (rnd1 rnd2 : nat -> Q) (models : list Vote) (i : nat) :
  agree rnd1 rnd2 i 10 ->
  ensemblePrediction rnd1 models i = ensemblePrediction rnd2 models i.
Proof.
  intro H. unfold ensemblePrediction, bind.
  rewrite (synthetic_loop_agree rnd1 rnd2 5 0 _ i) by exact H.
  reflexivity.
Qed.

(** C9: [predict] reads at most eleven draws and depends on nothing else: two
    runs on the same sessions whose random sources agree on the eleven draws
    from the starting position on give the same response, explanation text
    included, and stop at the same position of the stream. *)
Theorem predict_deterministic (rnd1 rnd2 : nat -> Q) (data_list : list Session) (i : nat) :
  agree rnd1 rnd2 i 11 ->
  predict rnd1 data_list i = predict rnd2 data_list i.
Proof.
  intro H. unfold predict.
  destruct (sort_desc data_list) as [|latest rest]; [reflexivity|].
  unfold bind at 1 3.
  rewrite (model1_agree rnd1 rnd2 _ i) by (eapply agree_sub; [| |exact H]; lia).
  pose proof (model1_position rnd2 (getRecentPatterns (latest :: rest) 5) i) as P.
  destruct (model1PatternAnalysis rnd2 _ i) as [v1 j]. cbn [snd] in P.
  destruct (model3Markov _); [|reflexivity].
  destruct (model5Heuristic _ _); [|reflexivity].
  unfold bind.
  rewrite (ensemblePrediction_agree rnd1 rnd2 _ j) by (eapply agree_sub; [| |exact H]; lia).
  reflexivity.
Qed.

Lemma predict_deterministic_witness :
  let rnd1 := fun _ : nat => 0.5 in
  let rnd2 := fun k : nat => if (k <? 11)%nat then 0.5 else 0.9 in
  let data_list := [mk 1 "TAI"; mk 2 "XIU"; mk 3 "TAI"] in
  agree rnd1 rnd2 0 11 /\
  predict rnd1 data_list 0%nat = predict rnd2 data_list 0%nat.
Proof.
  intros rnd1 rnd2 data_list.
  assert (A : agree rnd1 rnd2 0 11).
  { intros k Hk. unfold rnd1, rnd2.
    destruct (Nat.ltb_spec k 11); [reflexivity | lia]. }
  split; [exact A|].
  exact (predict_deterministic rnd1 rnd2 data_list 0%nat A).
Defined.

(** ** Which end of the history the pattern starts at *)

(** In the handler the pattern starts with the symbol of the last session of
    the sorted array, a session of minimum [id]. *)
Lemma pattern_head_oldest (data_list front : list Session) (oldest : Session) :
  sort_desc data_list = (front ++ [oldest])%list ->
  get 0 (getRecentPatterns (sort_desc data_list) 5) = Some (symbol oldest) /\
  forall s, In s data_list -> (id oldest <= id s)%Z.
Proof.
  intro E. split.
  - rewrite E. apply getRecentPatterns_head.
  - intros s Hs.
    apply (Permutation_in _ (sort_desc_perm data_list)) in Hs.
    pose proof (sort_desc_sorted data_list) as S.
    rewrite E in Hs, S. clear E.
    induction front as [|x front IH]; simpl in *.
    + destruct Hs as [<- | []]. lia.
    + inversion S as [|? ? S' F]; subst.
      destruct Hs as [<- | Hs]; [|exact (IH Hs S')].
      rewrite Forall_forall in F. apply (F oldest).
      apply in_or_app. right. now left.
Qed.

(** C1: on the history of the two sessions (id 1, XIU) and (id 2, TAI) the
    handler sorts the session with id 2 to the front, and the pattern has one
    character per session; but the pattern is XT: its first character is the
    symbol of the session with the minimum id, not T, the symbol of the
    session with the maximum id.  The handler answers with that pattern next
    to the data of the session with id 2. *)
Theorem pattern_head_not_latest (rnd : nat -> Q) (i : nat) :
  let data_list := [mk 1 "XIU"; mk 2 "TAI"] in
  let sessions := sort_desc data_list in
  let patternStr := getRecentPatterns sessions 5 in
  hd_error sessions = Some (mk 2 "TAI") /\
  String.length patternStr = length data_list /\
  patternStr = "XT" /\
  get 0 patternStr = Some (symbol (mk 1 "XIU")) /\
  get 0 patternStr <> Some (symbol (mk 2 "TAI")) /\
  exists out j,
    predict rnd data_list i = (OutputJson out, j) /\
    Output.session out = 2%Z /\ Output.result out = "TAI" /\
    Output.pattern out = "XT".
Proof.
  cbv zeta.
  split; [reflexivity|]. split; [reflexivity|]. split; [reflexivity|].
  split; [reflexivity|]. split; [discriminate|].
  eexists _, _. split.
  - apply (predict_unfold rnd _ (mk 2 "TAI") [mk 1 "XIU"] i); reflexivity.
  - split; [reflexivity|]. split; reflexivity.
Qed.

(** ** The Markov probability on a history without a transition to T *)

(** C3: on the history of the two sessions (id 1, XIU) and (id 2, XIU) the
    last symbol is X, there is one transition out of X and none of them to T;
    the Markov model uses the fallback 0.5 all the same, where the quotient
    of the counts is 0, and reports confidence 0.5, where the maximum of the
    quotient and its complement is 1. *)
Theorem markov_fallback_with_transitions :
  let sessions := sort_desc [mk 1 "XIU"; mk 2 "XIU"] in
  let t := transitions_of sessions in
  hd_error (map symbol sessions) = Some "X"%char /\
  count_from "X" "T" t = 0%Z /\ count_from "X" "X" t = 1%Z /\
  markov_pT "X" t = Fin 0.5 /\
  exists v q,
    model3Markov sessions = Some v /\
    prediction v = "X"%char /\ confidence v = Fin q /\ q == 0.5 /\
    explain v = "Xác suất chuyển từ X sang T: 0.50, dự đoán Xỉu.".
Proof.
  cbv zeta. repeat split.
  eexists _, _. repeat split.
Qed.

(** ** The shape rules of model 1 *)

Lemma test_1_1_even_bounded (n : nat) (s : string) :
  (String.length s <= n)%nat -> test_1_1 s = true ->
  Nat.even (String.length s) = true.
Proof.
  revert s. induction n as [|n IH]; intros s Hs H.
  - destruct s; [discriminate | simpl in Hs; lia].
  - destruct s as [|a [|b r]]; try discriminate.
    cbn [test_1_1] in H. apply andb_true_iff in H. destruct H as [_ H].
    cbn [String.length Nat.even].
    destruct r as [|c r']; [reflexivity|].
    apply IH; [simpl in *; lia | exact H].
Qed.

(** A string that matches [/^(TX|XT)+$/] has an even length. *)
Lemma test_1_1_even (s : string) :
  test_1_1 s = true -> Nat.even (String.length s) = true.
Proof. apply (test_1_1_even_bounded (String.length s)). lia. Qed.

Lemma slice0_length (n : nat) (s : string) :
  (n <= String.length s)%nat -> String.length (slice0 n s) = n.
Proof.
  unfold slice0. revert s. induction n as [|n IH]; intros s H.
  - destruct s; reflexivity.
  - destruct s as [|c s]; [simpl in H; lia|].
    cbn [substring String.length]. rewrite IH; [reflexivity | simpl in H; lia].
Qed.

(** The alternation rule cannot fire on a head of 5 characters. *)
Lemma alternation_rule_needs_short_pattern (pattern : string) :
  (5 <= String.length pattern)%nat -> test_1_1 (slice0 5 pattern) = false.
Proof.
  intro H. destruct (test_1_1 (slice0 5 pattern)) eqn:E; [|reflexivity].
  apply test_1_1_even in E. rewrite slice0_length in E by exact H.
  discriminate.
Qed.

(** C4: the pattern TXTXT, that of five sessions with alternating results,
    is its own head of five characters, a strict alternation on which no
    streak rule fires; the test of the alternation rule fails on it, and
    model 1 answers with its default, a random symbol with confidence 0.5,
    not with the opposite symbol X and confidence 0.7. *)
Theorem alternation_head_gets_default (rnd : nat -> Q) (i : nat) :
  getRecentPatterns
    (sort_desc [mk 1 "TAI"; mk 2 "XIU"; mk 3 "TAI"; mk 4 "XIU"; mk 5 "TAI"]) 5 =
  "TXTXT" /\
  slice0 5 "TXTXT" = "TXTXT" /\
  test_1_1 "TXTXT" = false /\
  model1PatternAnalysis rnd "TXTXT" i =
  ({| prediction := if Qltb 0.5 (rnd i) then "T" else "X";
      confidence := Fin 0.5;
      explain := "Không phát hiện mẫu rõ ràng, dự đoán ngẫu nhiên." |},
   S i).
Proof. repeat split. Qed.

Lemma prefix_only_TX (sub s : string) :
  prefix sub s = true -> only_TX s -> only_TX sub.
Proof.
  revert s. induction sub as [|a sub IH]; intros s H Hs; [exact I|].
  destruct s as [|b s]; [discriminate|].
  cbn [prefix] in H. destruct (ascii_dec a b) as [-> | _]; [|discriminate].
  destruct Hs as [Hb Hs]. split; [exact Hb | exact (IH s H Hs)].
Qed.

Lemma includes_only_TX (s sub : string) :
  includes s sub = true -> only_TX s -> only_TX sub.
Proof.
  induction s as [|c s IH]; cbn [includes]; intros H Hs.
  - rewrite orb_false_r in H. exact (prefix_only_TX _ _ H Hs).
  - apply orb_true_iff in H. destruct H as [H | H].
    + exact (prefix_only_TX _ _ H Hs).
    + destruct Hs as [_ Hs]. exact (IH H Hs).
Qed.

Lemma string_of_list_only_TX (l : list ascii) :
  Forall is_TX l -> only_TX (string_of_list_ascii l).
Proof.
  induction 1; simpl; auto.
Qed.

Lemma getRecentPatterns_only_TX (sessions : list Session) :
  only_TX (getRecentPatterns sessions 5).
Proof.
  rewrite getRecentPatterns_unfold. apply string_of_list_only_TX.
  apply Forall_rev, Forall_forall. intros c Hc.
  apply in_map_iff in Hc. destruct Hc as (s & <- & _). apply symbol_TX.
Qed.

(** The two 3-1 tests look for a space, which no pattern contains: on the
    patterns of the handler they are never true. *)
Lemma three_one_rule_dead (sessions : list Session) :
  includes (getRecentPatterns sessions 5) "TTT X" = false /\
  includes (getRecentPatterns sessions 5) "XXX T" = false.
Proof.
  pose proof (getRecentPatterns_only_TX sessions) as H.
  split.
  - destruct (includes _ "TTT X") eqn:E; [|reflexivity].
    pose proof (includes_only_TX _ _ E H) as (_ & _ & _ & [C | C] & _);
      discriminate.
  - destruct (includes _ "XXX T") eqn:E; [|reflexivity].
    pose proof (includes_only_TX _ _ E H) as (_ & _ & _ & [C | C] & _);
      discriminate.
Qed.

(** C5: the pattern XTTTTX, that of six sessions, contains a run of four T
    followed by X, and no higher rule fires on it; the test of the 3-1 rule,
    which looks for a space, fails, and model 1 answers with its default, a
    random symbol with confidence 0.5, not with T and confidence 0.65. *)
Theorem run_then_opposite_gets_default (rnd : nat -> Q) (i : nat) :
  getRecentPatterns
    (sort_desc [mk 1 "XIU"; mk 2 "TAI"; mk 3 "TAI"; mk 4 "TAI"; mk 5 "TAI";
                mk 6 "XIU"]) 5 =
  "XTTTTX" /\
  includes "XTTTTX" "TTTTX" = true /\
  includes "XTTTTX" "TTT X" = false /\
  model1PatternAnalysis rnd "XTTTTX" i =
  ({| prediction := if Qltb 0.5 (rnd i) then "T" else "X";
      confidence := Fin 0.5;
      explain := "Không phát hiện mẫu rõ ràng, dự đoán ngẫu nhiên." |},
   S i).
Proof. repeat split. Qed.

(** * Further properties of the code *)

(** ** The normalizer *)

(** X1: whatever [minCount] is, [getRecentPatterns] keeps the whole history:
    the pattern is the symbols of the sessions in reverse order, it has one
    character per session, and every character is T or X. *)
Theorem getRecentPatterns_whole_history (sessions : list Session) (minCount : nat) :
  getRecentPatterns sessions minCount =
  string_of_list_ascii (rev (map symbol sessions)) /\
  String.length (getRecentPatterns sessions minCount) = length sessions /\
  only_TX (getRecentPatterns sessions minCount).
Proof.
  assert (E : getRecentPatterns sessions minCount =
              string_of_list_ascii (rev (map symbol sessions))).
  { unfold getRecentPatterns. f_equal. apply firstn_all2. lia. }
  rewrite E. split; [reflexivity|]. split.
  - now rewrite string_of_list_ascii_length, length_rev, length_map.
  - rewrite <- getRecentPatterns_unfold. apply getRecentPatterns_only_TX.
Qed.

(** ** The sort of the handler *)

Lemma insert_desc_head (x : Session) (l : list Session) :
  Forall (fun y => (id y <= id x)%Z) l -> insert_desc x l = x :: l.
Proof.
  intro F. destruct l as [|y l]; [reflexivity|].
  simpl. inversion F as [|? ? Hy _]; subst.
  apply Z.leb_le in Hy. now rewrite Hy.
Qed.

(** X2: the sort of the handler leaves an array unchanged that is already
    ordered latest-first, that is, by descending [id]. *)
Theorem sort_desc_sorted_input (l : list Session) :
  StronglySorted desc l -> sort_desc l = l.
Proof.
  induction 1 as [|x l Hl IH Hx]; [reflexivity|].
  simpl. rewrite IH. apply insert_desc_head. exact Hx.
Qed.

Lemma sort_desc_sorted_input_witness :
  let l := [mk 3 "TAI"; mk 2 "XIU"; mk 1 "TAI"] in
  StronglySorted desc l /\ sort_desc l = l.
Proof.
  intro l.
  assert (S : StronglySorted desc l).
  { repeat constructor; unfold desc; simpl; lia. }
  split; [exact S|].
  exact (sort_desc_sorted_input l S).
Defined.

Lemma NoDup_map_inj {A B} (f : A -> B) (l : list A) (x y : A) :
  NoDup (map f l) -> In x l -> In y l -> f x = f y -> x = y.
Proof.
  induction l as [|a l IH]; simpl; intros N Hx Hy E; [contradiction|].
  inversion N as [|? ? Na Nl]; subst.
  destruct Hx as [-> | Hx], Hy as [-> | Hy]; try reflexivity.
  - exfalso. apply Na. rewrite E. now apply in_map.
  - exfalso. apply Na. rewrite <- E. now apply in_map.
  - now apply IH.
Qed.

Lemma sorted_perm_unique (a b : list Session) :
  StronglySorted desc a -> StronglySorted desc b ->
  NoDup (map id a) -> Permutation a b -> a = b.
Proof.
  intros Sa. revert b. induction Sa as [|x a Sa IH Fx]; intros b Sb N P.
  - apply Permutation_nil in P. now subst.
  - destruct b as [|y b].
    { apply Permutation_sym, Permutation_nil in P. discriminate. }
    inversion Sb as [|? ? Sb' Fy]; subst.
    assert (Hy : In y (x :: a)).
    { apply (Permutation_in _ (Permutation_sym P)). now left. }
    assert (Hx : In x (y :: b)).
    { apply (Permutation_in _ P). now left. }
    assert (E : x = y).
    { apply (NoDup_map_inj id (x :: a)); [exact N | now left | exact Hy |].
      rewrite Forall_forall in Fx, Fy. unfold desc in *.
      assert ((id y <= id x)%Z).
      { destruct Hy as [-> | Hy]; [lia | exact (Fx y Hy)]. }
      assert ((id x <= id y)%Z).
      { destruct Hx as [-> | Hx]; [lia | exact (Fy x Hx)]. }
      lia. }
    subst y. f_equal.
    apply IH; [exact Sb' | | exact (Permutation_cons_inv P)].
    simpl in N. now inversion N.
Qed.

Lemma sort_desc_order_independent (l1 l2 : list Session) :
  NoDup (map id l1) -> Permutation l1 l2 -> sort_desc l1 = sort_desc l2.
Proof.
  intros N P.
  apply sorted_perm_unique; try apply sort_desc_sorted.
  - apply (Permutation_NoDup (l := map id l1)); [|exact N].
    apply Permutation_map, sort_desc_perm.
  - rewrite <- (sort_desc_perm l1), <- (sort_desc_perm l2). exact P.
Qed.

(** X3: when the ids are distinct, the answer of [predict] does not depend on
    the order in which the provider lists the sessions. *)
Theorem predict_order_independent (rnd : nat -> Q) (l1 l2 : list Session) (i : nat) :
  NoDup (map id l1) -> Permutation l1 l2 ->
  predict rnd l1 i = predict rnd l2 i.
Proof.
  intros N P. unfold predict.
  now rewrite (sort_desc_order_independent l1 l2 N P).
Qed.

Lemma predict_order_independent_witness :
  let l1 := [mk 1 "XIU"; mk 3 "TAI"; mk 2 "TAI"] in
  let l2 := [mk 3 "TAI"; mk 2 "TAI"; mk 1 "XIU"] in
  NoDup (map id l1) /\ Permutation l1 l2 /\
  predict (fun _ => 0.5) l1 0%nat = predict (fun _ => 0.5) l2 0%nat.
Proof.
  intros l1 l2.
  assert (N : NoDup (map id l1)).
  { repeat constructor; simpl; intuition discriminate. }
  assert (P : Permutation l1 l2).
  { unfold l1, l2.
    apply (perm_trans (l' := [mk 3 "TAI"; mk 1 "XIU"; mk 2 "TAI"])).
    - apply perm_swap.
    - apply perm_skip, perm_swap. }
  split; [exact N|]. split; [exact P|].
  exact (predict_order_independent (fun _ => 0.5) l1 l2 0%nat N P).
Defined.

(** ** What the handler reports *)


Lemma predict_returns_output (data_list : list Session) :
  data_list <> [] ->
  exists latest rest model3 model5,
    sort_desc data_list = latest :: rest /\
    model3Markov (latest :: rest) = Some model3 /\ well_formed model3 /\
    model5Heuristic (getRecentPatterns (latest :: rest) 5)
      (calculateRatios (latest :: rest)) = Some model5 /\ well_formed model5.
Proof.
  intro Hne.
  pose proof (sort_desc_nonempty _ Hne) as Hs.
  destruct (sort_desc data_list) as [|latest rest] eqn:Es; [congruence|].
  destruct (model3_well_formed (latest :: rest) Hs) as (v3 & E3 & W3).
  destruct (getRecentPatterns_starts_TX (latest :: rest) Hs) as (c & r & Ep & Hc).
  destruct (model5_returns c r (calculateRatios (latest :: rest)) Hc) as (v5 & E5).
  rewrite <- Ep in E5.
  exists latest, rest, v3, v5.
  split; [reflexivity|]. split; [exact E3|]. split; [exact W3|].
  split; [exact E5|]. exact (model5_well_formed _ _ _ E5).
Qed.

(** ** Model 1 *)

(** X5: when the pattern starts with four equal symbols, model 1 votes for
    that symbol with confidence 0.8 and takes no draw from the random
    source. *)
Theorem model1_streak_continues (rnd : nat -> Q) (c : ascii) (rest : string) (i : nat) :
  is_TX c ->
  let pattern := String c (String c (String c (String c rest))) in
  prediction (fst (model1PatternAnalysis rnd pattern i)) = c /\
  confidence (fst (model1PatternAnalysis rnd pattern i)) = Fin 0.8 /\
  snd (model1PatternAnalysis rnd pattern i) = i.
Proof.
  intros [-> | ->] pattern; subst pattern; unfold model1PatternAnalysis;
    destruct rest as [|d r]; cbn; try rewrite orb_true_r; cbn; auto.
Qed.

Lemma model1_streak_continues_witness :
  is_TX "T" /\
  prediction (fst (model1PatternAnalysis (fun _ => 0.5) "TTTTX" 0%nat)) = "T"%char /\
  confidence (fst (model1PatternAnalysis (fun _ => 0.5) "TTTTX" 0%nat)) = Fin 0.8 /\
  snd (model1PatternAnalysis (fun _ => 0.5) "TTTTX" 0%nat) = 0%nat.
Proof.
  assert (H : is_TX "T") by (left; reflexivity).
  split; [exact H|].
  exact (model1_streak_continues (fun _ => 0.5) "T" "X" 0%nat H).
Defined.

(** The branch model 1 takes, by the confidence it reports. *)
Lemma model1_confidences (rnd : nat -> Q) (pattern : string) (i : nat) :
  let m := model1PatternAnalysis rnd pattern i in
  (confidence (fst m) = Fin 0.8 /\ snd m = i) \/
  (confidence (fst m) = Fin 0.7 /\ snd m = i /\ test_1_1 (slice0 5 pattern) = true) \/
  (confidence (fst m) = Fin 0.75 /\ snd m = i) \/
  (confidence (fst m) = Fin 0.65 /\ snd m = i /\
   (includes pattern "TTT X" = true \/ includes pattern "XXX T" = true)) \/
  (confidence (fst m) = Fin 0.5 /\ snd m = S i).
Proof.
  unfold model1PatternAnalysis.
  destruct (_ || _); [left; split; reflexivity|].
  destruct (_ || _); [left; split; reflexivity|].
  destruct (test_1_1 _) eqn:E1; [right; left; repeat split; reflexivity|].
  destruct (test_2_2 _); [right; right; left; split; reflexivity|].
  destruct (includes pattern "TTT X") eqn:E3.
  { right; right; right; left. repeat split; auto. }
  destruct (includes pattern "XXX T") eqn:E4.
  { right; right; right; left. repeat split; auto. }
  right; right; right; right. split; reflexivity.
Qed.

(** X6: on the pattern of five sessions or more, model 1 answers by the
    streak rule (0.8), by the 2-2 rule (0.75) or by its random default (0.5,
    one draw); the alternation rule and the 3-1 rule never fire. *)
Theorem model1_reachable_rules (rnd : nat -> Q) (sessions : list Session) (i : nat) :
  (5 <= length sessions)%nat ->
  let m := model1PatternAnalysis rnd (getRecentPatterns sessions 5) i in
  (confidence (fst m) = Fin 0.8 /\ snd m = i) \/
  (confidence (fst m) = Fin 0.75 /\ snd m = i) \/
  (confidence (fst m) = Fin 0.5 /\ snd m = S i).
Proof.
  intros L m. subst m.
  destruct (model1_confidences rnd (getRecentPatterns sessions 5) i)
    as [H | [(_ & _ & H) | [H | [(_ & _ & H) | H]]]]; auto.
  - rewrite alternation_rule_needs_short_pattern in H; [discriminate|].
    now rewrite getRecentPatterns_length.
  - destruct (three_one_rule_dead sessions) as (A & B).
    rewrite A, B in H. destruct H; discriminate.
Qed.

Lemma model1_reachable_rules_witness :
  let sessions := [mk 5 "TAI"; mk 4 "XIU"; mk 3 "TAI"; mk 2 "XIU"; mk 1 "TAI"] in
  let m := model1PatternAnalysis (fun _ => 0.5) (getRecentPatterns sessions 5) 0%nat in
  (5 <= length sessions)%nat /\
  ((confidence (fst m) = Fin 0.8 /\ snd m = 0%nat) \/
   (confidence (fst m) = Fin 0.75 /\ snd m = 0%nat) \/
   (confidence (fst m) = Fin 0.5 /\ snd m = 1%nat)).
Proof.
  intros sessions m.
  assert (L : (5 <= length sessions)%nat) by (simpl; lia).
  split; [exact L|].
  exact (model1_reachable_rules (fun _ => 0.5) sessions 0%nat L).
Defined.

(** X7: a run of [predict] on a non-empty list takes the draws of model 1
    and ten more; model 1 takes one draw exactly when it answers with its
    default confidence 0.5, and none otherwise. *)
Theorem predict_draws (rnd : nat -> Q) (data_list : list Session) (i : nat) :
  data_list <> [] ->
  let m := model1PatternAnalysis rnd (getRecentPatterns (sort_desc data_list) 5) i in
  snd (predict rnd data_list i) = (snd m + 10)%nat /\
  (snd m = i \/ snd m = S i) /\
  (snd m = S i <-> confidence (fst m) = Fin 0.5).
Proof.
  intros Hne m.
  destruct (predict_returns_output data_list Hne)
    as (latest & rest & v3 & v5 & Es & E3 & _ & E5 & _).
  rewrite (predict_unfold rnd data_list latest rest i v3 v5 Es E3 E5).
  cbn [snd]. rewrite ensemblePrediction_unfold. cbn [snd].
  subst m. rewrite Es. split; [reflexivity|].
  destruct (model1_confidences rnd (getRecentPatterns (latest :: rest) 5) i)
    as [(C & P) | [(C & P & _) | [(C & P) | [(C & P & _) | (C & P)]]]];
    rewrite C, P; (split; [auto|]); split; intro H;
    try reflexivity; try discriminate H; try (exfalso; lia).
Qed.

Lemma predict_draws_witness :
  let data_list := [mk 1 "TAI"] in
  let m := model1PatternAnalysis (fun _ => 0.5)
             (getRecentPatterns (sort_desc data_list) 5) 0%nat in
  data_list <> [] /\
  snd (predict (fun _ => 0.5) data_list 0%nat) = (snd m + 10)%nat /\
  (snd m = 0%nat \/ snd m = 1%nat) /\
  (snd m = 1%nat <-> confidence (fst m) = Fin 0.5).
Proof.
  intros data_list m.
  assert (N : data_list <> []) by discriminate.
  split; [exact N|].
  exact (predict_draws (fun _ => 0.5) data_list 0%nat N).
Defined.

(** ** Model 2 *)

(** A comparison of a quotient of integers with a rational, over integers. *)
Lemma gtb_fraction (k n a b : Z) :
  (0 < n)%Z -> (0 < b)%Z ->
  gtb (Fin (inject_Z k / inject_Z n)) (Fin (inject_Z a / inject_Z b)) =
  (a * n <? k * b)%Z.
Proof.
  intros Hn Hb. cbn [gtb].
  pose proof (inject_Z_pos n Hn) as N. pose proof (inject_Z_pos b Hb) as B.
  assert (E : inject_Z a / inject_Z b < inject_Z k / inject_Z n <->
              inject_Z (a * n) < inject_Z (k * b)).
  { rewrite !inject_Z_mult. split; intro H.
    - apply (Qmult_lt_compat_r _ _ (inject_Z n * inject_Z b)) in H; [|nra].
      field_simplify in H; [|lra|lra]. nra.
    - apply Qlt_shift_div_l; [exact N|].
      setoid_replace (inject_Z a / inject_Z b * inject_Z n)
        with (inject_Z a * inject_Z n / inject_Z b) by (field; lra).
      apply Qlt_shift_div_r; [exact B | exact H]. }
  rewrite <- Zlt_Qlt in E.
  destruct (a * n <? k * b)%Z eqn:F.
  - apply Qltb_lt, E, Z.ltb_lt, F.
  - apply Z.ltb_ge in F. apply Qltb_ge.
    apply Qnot_lt_le. intro H. apply E in H. lia.
Qed.

Lemma gtb_Qeq (x x' y y' : Q) :
  x == x' -> y == y' -> gtb (Fin x) (Fin y) = gtb (Fin x') (Fin y').
Proof.
  intros Ex Ey. cbn [gtb]. unfold Qltb. now rewrite Ex, Ey.
Qed.

(** X8: with [k] TAI sessions among the [n] sessions of the window (the
    first 20 of a non-empty array), model 2 votes X with 0.75 when
    [10 k > 7 n], else T with 0.75 when [10 k < 3 n], else with 0.6 for T
    when [2 k > n] and for X otherwise. *)
Theorem model2_by_counts (sessions : list Session) :
  sessions <> [] ->
  let window := firstn 20 sessions in
  let k := Z.of_nat (length (filter is_tai window)) in
  let n := Z.of_nat (length window) in
  let v := model2Probability sessions in
  (prediction v, confidence v) =
  if (7 * n <? 10 * k)%Z then ("X"%char, Fin 0.75)
  else if (10 * k <? 3 * n)%Z then ("T"%char, Fin 0.75)
  else (if (n <? 2 * k)%Z then "T"%char else "X"%char, Fin 0.6).
Proof.
  intros Hne window k n v.
  assert (Hn : (0 < n)%Z).
  { subst n window. destruct sessions; [congruence | simpl; lia]. }
  subst v. unfold model2Probability, window_ratio. fold window. fold k. fold n.
  rewrite of_Z_div_pos by exact Hn. unfold ltb.
  rewrite (gtb_Qeq _ (inject_Z k / inject_Z n) 0.7 (inject_Z 7 / inject_Z 10))
    by reflexivity.
  rewrite (gtb_Qeq 0.3 (inject_Z 3 / inject_Z 10) _ (inject_Z k / inject_Z n))
    by reflexivity.
  rewrite (gtb_Qeq _ (inject_Z k / inject_Z n) 0.5 (inject_Z 1 / inject_Z 2))
    by reflexivity.
  rewrite !gtb_fraction by lia.
  replace (k * 10)%Z with (10 * k)%Z by lia.
  replace (3 * n)%Z with (3 * n)%Z by lia.
  replace (1 * n)%Z with n by lia.
  replace (k * 2)%Z with (2 * k)%Z by lia.
  destruct (7 * n <? 10 * k)%Z; [reflexivity|].
  destruct (10 * k <? 3 * n)%Z; reflexivity.
Qed.

Lemma model2_by_counts_witness :
  let sessions := [mk 4 "TAI"; mk 3 "TAI"; mk 2 "TAI"; mk 1 "XIU"] in
  let window := firstn 20 sessions in
  let k := Z.of_nat (length (filter is_tai window)) in
  let n := Z.of_nat (length window) in
  let v := model2Probability sessions in
  sessions <> [] /\
  (prediction v, confidence v) =
  if (7 * n <? 10 * k)%Z then ("X"%char, Fin 0.75)
  else if (10 * k <? 3 * n)%Z then ("T"%char, Fin 0.75)
  else (if (n <? 2 * k)%Z then "T"%char else "X"%char, Fin 0.6).
Proof.
  intros sessions window k n v.
  assert (N : sessions <> []) by discriminate.
  split; [exact N|].
  exact (model2_by_counts sessions N).
Defined.

(** The sessions after the twentieth do not reach model 2. *)
Lemma window_ratio_window (recent older : list Session) :
  length recent = 20%nat ->
  window_ratio (recent ++ older) = window_ratio recent.
Proof.
  intro L. unfold window_ratio.
  rewrite firstn_app, L. cbn [Nat.sub firstn]. rewrite app_nil_r.
  reflexivity.
Qed.

(** X9: the sessions after the twentieth have no influence on model 2. *)
Theorem model2_window (recent older : list Session) :
  length recent = 20%nat ->
  model2Probability (recent ++ older) = model2Probability recent.
Proof.
  intro L. unfold model2Probability. now rewrite window_ratio_window.
Qed.

Lemma model2_window_witness :
  let recent := repeat (mk 2 "TAI") 20 in
  let older := [mk 1 "XIU"; mk 0 "XIU"] in
  length recent = 20%nat /\
  model2Probability (recent ++ older) = model2Probability recent.
Proof.
  intros recent older.
  assert (L : length recent = 20%nat) by reflexivity.
  split; [exact L|].
  exact (model2_window recent older L).
Defined.

(** ** Model 3 *)

Lemma bump_transition_total (a b : ascii) (t : Transitions) :
  is_TX a -> is_TX b ->
  table_total (bump_transition (key2 a b) t) = (table_total t + 1)%Z.
Proof.
  intros [-> | ->] [-> | ->]; unfold table_total; cbn; lia.
Qed.

Lemma count_transitions_total (sessions : list Session) (t : Transitions) :
  table_total (count_transitions sessions t) =
  (table_total t + Z.of_nat (pred (length sessions)))%Z.
Proof.
  revert t. induction sessions as [|a l IH]; intro t; [simpl; lia|].
  destruct l as [|b l']; [simpl; lia|].
  change (count_transitions (a :: b :: l') t)
    with (count_transitions (b :: l') (bump_transition (key2 (symbol a) (symbol b)) t)).
  rewrite IH, bump_transition_total by apply symbol_TX.
  cbn [length pred]. lia.
Qed.

(** X10: after the loop of model 3 the four counters are not negative and
    add up to the number of adjacent pairs of sessions, the length of the
    array minus one (zero for the empty array). *)
Theorem transitions_total (sessions : list Session) :
  let t := transitions_of sessions in
  counted t /\
  (TT t + TX t + XT t + XX t)%Z = Z.of_nat (pred (length sessions)).
Proof.
  intro t. split.
  - apply count_transitions_counted, counted_zero.
  - subst t. unfold transitions_of.
    pose proof (count_transitions_total sessions {| TT := 0; TX := 0; XT := 0; XX := 0 |}) as H.
    unfold table_total in H. cbn [TT TX XT XX] in H. lia.
Qed.


(** ** Model 4 *)

Lemma bump_next_total (next : option ascii) (c : NextCounts) :
  (next_total c <= next_total (bump_next next c) <= next_total c + 1)%Z.
Proof.
  unfold next_total, bump_next.
  destruct next as [k|]; [|lia].
  destruct (k =? "T")%char; [simpl; lia|].
  destruct (k =? "X")%char; simpl; lia.
Qed.

Lemma ngram_scan_total (n : nat) (lastN h : string) (c : NextCounts) :
  (next_total c <= next_total (ngram_scan n lastN h c)
   <= next_total c + Z.of_nat (String.length h - n))%Z.
Proof.
  revert c. induction h as [|x h IH]; intro c; [simpl; lia|].
  cbn [ngram_scan].
  destruct (n <? String.length (String x h))%nat eqn:E; cbn [andb].
  - apply Nat.ltb_lt in E. cbn [String.length] in *.
    destruct (slice0 n (String x h) =? lastN)%string.
    + pose proof (bump_next_total (get n (String x h)) c).
      specialize (IH (bump_next (get n (String x h)) c)). lia.
    + specialize (IH c). lia.
  - apply Nat.ltb_ge in E. cbn [String.length] in *.
    specialize (IH c). lia.
Qed.

(** The two counters of model 4 are not negative and count at most one
    continuation per window. *)
Lemma ngram_counts_bound (pattern : string) (sessions : list Session) :
  let c := ngram_counts pattern sessions in
  (0 <= nextT c)%Z /\ (0 <= nextX c)%Z /\
  (nextT c + nextX c <= Z.of_nat (length sessions - 4))%Z.
Proof.
  intro c.
  assert (T : tallied c).
  { apply ngram_scan_tallied. unfold tallied; simpl; lia. }
  destruct T as (A & B). split; [exact A|]. split; [exact B|].
  subst c. unfold ngram_counts.
  pose proof (ngram_scan_total 4 (slice0 4 pattern)
                (string_of_list_ascii (map symbol sessions))
                {| nextT := 0; nextX := 0 |}) as H.
  unfold next_total in H. cbn [nextT nextX] in H.
  rewrite string_of_list_ascii_length, length_map in H. lia.
Qed.

(** X12: with four sessions or fewer, model 4 finds no match and answers
    with its default, T with confidence 0.5, whatever the pattern. *)
Theorem model4_short_history (pattern : string) (sessions : list Session) :
  (length sessions <= 4)%nat ->
  model4NGram pattern sessions =
  {| prediction := "T"; confidence := Fin 0.5;
     explain := "Không có mẫu khớp, dự đoán mặc định." |}.
Proof.
  intro L. unfold model4NGram.
  pose proof (ngram_counts_bound pattern sessions) as (A & B & C).
  replace (length sessions - 4)%nat with 0%nat in C by lia.
  replace (nextT (ngram_counts pattern sessions) +
           nextX (ngram_counts pattern sessions))%Z with 0%Z by (simpl in C; lia).
  reflexivity.
Qed.

Lemma model4_short_history_witness :
  let sessions := [mk 3 "TAI"; mk 2 "XIU"; mk 1 "TAI"] in
  (length sessions <= 4)%nat /\
  model4NGram (getRecentPatterns sessions 5) sessions =
  {| prediction := "T"; confidence := Fin 0.5;
     explain := "Không có mẫu khớp, dự đoán mặc định." |}.
Proof.
  intro sessions.
  assert (L : (length sessions <= 4)%nat) by (simpl; lia).
  split; [exact L|].
  exact (model4_short_history (getRecentPatterns sessions 5) sessions L).
Defined.


(** X14: in the handler the history model 4 scans is the pattern read
    backwards, while the 4-gram it looks for is the head of the pattern. *)
Theorem model4_reads_reversed_pattern (sessions : list Session) :
  let pattern := getRecentPatterns sessions 5 in
  ngram_counts pattern sessions =
  ngram_scan 4 (slice0 4 pattern)
    (string_of_list_ascii (rev (list_ascii_of_string pattern)))
    {| nextT := 0; nextX := 0 |}.
Proof.
  intro pattern. subst pattern. unfold ngram_counts.
  rewrite getRecentPatterns_unfold, list_ascii_of_string_of_list_ascii,
    rev_involutive.
  reflexivity.
Qed.

(** ** Model 5 *)

(** X15: when the pattern starts with four equal symbols, model 5 votes for
    the other symbol with confidence 0.7, whatever the ratios, while model 1
    votes for the symbol of the streak: the two models disagree. *)
Theorem streak_models_disagree (rnd : nat -> Q) (c : ascii) (rest : string)
        (ratios : Ratios) (i : nat) :
  is_TX c ->
  let pattern := String c (String c (String c (String c rest))) in
  exists v5,
    model5Heuristic pattern ratios = Some v5 /\
    prediction v5 = opposite c /\ confidence v5 = Fin 0.7 /\
    prediction (fst (model1PatternAnalysis rnd pattern i)) = c /\
    prediction v5 <> prediction (fst (model1PatternAnalysis rnd pattern i)).
Proof.
  intros Hc pattern.
  assert (P1 : prediction (fst (model1PatternAnalysis rnd pattern i)) = c).
  { subst pattern. unfold model1PatternAnalysis.
    destruct Hc as [-> | ->]; destruct rest as [|d r]; cbn;
      try rewrite orb_true_r; reflexivity. }
  rewrite P1. subst pattern.
  destruct Hc as [-> | ->]; eexists; (split; [reflexivity|]);
    repeat split; discriminate.
Qed.

Lemma streak_models_disagree_witness :
  let pattern := "XXXXT" in
  is_TX "X" /\
  exists v5,
    model5Heuristic pattern {| Tai := "20.00%"; Xiu := "80.00%" |} = Some v5 /\
    prediction v5 = opposite "X" /\ confidence v5 = Fin 0.7 /\
    prediction (fst (model1PatternAnalysis (fun _ => 0.5) pattern 0%nat)) = "X"%char /\
    prediction v5 <> prediction (fst (model1PatternAnalysis (fun _ => 0.5) pattern 0%nat)).
Proof.
  intro pattern.
  assert (H : is_TX "X") by (right; reflexivity).
  split; [exact H|].
  exact (streak_models_disagree (fun _ => 0.5) "X" "T"
           {| Tai := "20.00%"; Xiu := "80.00%" |} 0%nat H).
Defined.

Lemma is_TX_eqb (c : ascii) :
  ((c =? "T")%char || (c =? "X")%char) = true <-> is_TX c.
Proof.
  unfold is_TX. rewrite orb_true_iff, !Ascii.eqb_eq. reflexivity.
Qed.

(** X16: model 5 throws exactly when the pattern is empty or starts with a
    character other than T and X. *)
Theorem model5_throws_iff (pattern : string) (ratios : Ratios) :
  model5Heuristic pattern ratios = None <->
  match pattern with
  | EmptyString => True
  | String c _ => ~ is_TX c
  end.
Proof.
  unfold model5Heuristic, match_streak.
  destruct pattern as [|c r]; [tauto|].
  cbn [get].
  destruct ((c =? "T")%char || (c =? "X")%char) eqn:E.
  - apply is_TX_eqb in E. split; [|tauto].
    destruct (4 <=? _)%nat; [discriminate|].
    destruct (gtb _ _); discriminate.
  - split; [|reflexivity]. intros _ H. apply is_TX_eqb in H. congruence.
Qed.

(** ** Ratios *)

Lemma toFixed2_Qeq (q q' : Q) : q == q' -> toFixed2 (Fin q) = toFixed2 (Fin q').
Proof.
  intro E. unfold toFixed2.
  assert (L : Qltb q 0 = Qltb q' 0) by (unfold Qltb; now rewrite E).
  assert (R : forall x y, x == y -> round_hundredths x = round_hundredths y).
  { intros x y H. unfold round_hundredths. f_equal. apply Qfloor_comp.
    now rewrite H. }
  rewrite L, (R q q' E), (R (- q) (- q')) by now rewrite E.
  reflexivity.
Qed.

Lemma percent_full (n : Z) : (0 < n)%Z -> percent n n = "100.00%".
Proof.
  intro H. unfold percent. rewrite of_Z_div_pos by exact H. cbn [mul].
  pose proof (inject_Z_pos n H).
  rewrite (toFixed2_Qeq _ 100) by (field; lra). reflexivity.
Qed.

Lemma percent_none (n : Z) : (0 < n)%Z -> percent 0 n = "0.00%".
Proof.
  intro H. unfold percent. rewrite of_Z_div_pos by exact H. cbn [mul].
  pose proof (inject_Z_pos n H).
  rewrite (toFixed2_Qeq _ 0) by (change (inject_Z 0) with 0; field; lra).
  reflexivity.
Qed.

Lemma filter_all {A} (f : A -> bool) (l : list A) :
  Forall (fun x => f x = true) l -> filter f l = l.
Proof.
  induction 1 as [|x l Hx _ IH]; simpl; [reflexivity|]. now rewrite Hx, IH.
Qed.

Lemma filter_none {A} (f : A -> bool) (l : list A) :
  Forall (fun x => f x = false) l -> filter f l = [].
Proof.
  induction 1 as [|x l Hx _ IH]; simpl; [reflexivity|]. now rewrite Hx, IH.
Qed.

(** X17: for a non-empty array, when every session is TAI the ratios are
    100.00% and 0.00%, and when none is they are 0.00% and 100.00%. *)
Theorem calculateRatios_one_sided (sessions : list Session) :
  sessions <> [] ->
  (Forall (fun s => is_tai s = true) sessions ->
   calculateRatios sessions = {| Tai := "100.00%"; Xiu := "0.00%" |}) /\
  (Forall (fun s => is_tai s = false) sessions ->
   calculateRatios sessions = {| Tai := "0.00%"; Xiu := "100.00%" |}).
Proof.
  intro Hne.
  assert (Hn : (0 < Z.of_nat (length sessions))%Z).
  { destruct sessions; [congruence | simpl; lia]. }
  split; intro F; unfold calculateRatios.
  - rewrite (filter_all _ _ F), Z.sub_diag.
    now rewrite percent_full, percent_none.
  - rewrite (filter_none _ _ F). cbn [length Z.of_nat]. rewrite Z.sub_0_r.
    now rewrite percent_full, percent_none.
Qed.

Lemma calculateRatios_one_sided_witness :
  let sessions := [mk 2 "TAI"; mk 1 "TAI"] in
  sessions <> [] /\
  (Forall (fun s => is_tai s = true) sessions ->
   calculateRatios sessions = {| Tai := "100.00%"; Xiu := "0.00%" |}) /\
  (Forall (fun s => is_tai s = false) sessions ->
   calculateRatios sessions = {| Tai := "0.00%"; Xiu := "100.00%" |}).
Proof.
  intro sessions.
  assert (N : sessions <> []) by discriminate.
  split; [exact N|].
  exact (calculateRatios_one_sided sessions N).
Defined.


(** ** The aggregator *)

Lemma cast_split (c : Q) (pred : ascii) (text : string) (a : Tally) :
  is_TX pred -> 0 <= c -> tally_split a -> tally_split (cast pred (Fin c) text a).
Proof.
  intros Hp Hc (t & x & w & Et & Ex & Ew & Ht & Hx & Hw).
  unfold tally_split, cast; cbn [votesT votesX totalConfidence].
  rewrite Et, Ex, Ew.
  destruct Hp as [-> | ->]; cbn [Ascii.eqb Bool.eqb add];
    eexists _, _, _; (split; [reflexivity|]); (split; [reflexivity|]);
    (split; [reflexivity|]); repeat split; try lra; rewrite <- Hw; ring.
Qed.

Lemma cast_models_split (voters : list Vote) (a : Tally) :
  Forall well_formed voters -> tally_split a ->
  tally_split (fold_left cast_model voters a).
Proof.
  intro F. revert a. induction F as [|v voters Hv _ IH]; intros a Ha; [exact Ha|].
  cbn [fold_left]. apply IH.
  destruct Hv as (Hp & q & Eq & Hq).
  unfold cast_model. rewrite Eq. apply cast_split; [exact Hp | lra | exact Ha].
Qed.

Lemma synthetic_well_formed (rnd : nat -> Q) (start i : nat) :
  unit_draws rnd -> well_formed (fst (synthetic rnd start i)).
Proof.
  intro U. split.
  - unfold synthetic, bind, Math_random, ret; cbn.
    destruct (Qltb 0.5 (rnd i)); unfold is_TX; auto.
  - destruct (synthetic_confidence rnd start i U) as (c & Ec & Hc).
    exists c. split; [exact Ec | lra].
Qed.

Lemma synthetic_voters_well_formed (rnd : nat -> Q) (count start i : nat) :
  unit_draws rnd -> Forall well_formed (synthetic_voters rnd count start i).
Proof.
  intro U. revert start i. induction count as [|count IH]; intros start i.
  - constructor.
  - cbn [synthetic_voters]. constructor; [apply synthetic_well_formed, U | apply IH].
Qed.

(** The accumulators after the ten voters of a run. *)
Lemma final_tally (rnd : nat -> Q) (models : list Vote) (i : nat) :
  unit_draws rnd -> Forall well_formed models ->
  let a := fold_left cast_model (models ++ synthetic_voters rnd 5 0 i)%list tally0 in
  exists t x w,
    votesT a = Fin t /\ votesX a = Fin x /\ totalConfidence a = Fin w /\
    0 <= t /\ 0 <= x /\ t + x == w /\ 0.6 <= w.
Proof.
  intros U F a.
  assert (S : tally_split a).
  { apply cast_models_split.
    - apply Forall_app. split; [exact F | apply synthetic_voters_well_formed, U].
    - exists 0, 0, 0. cbn. repeat split; lra. }
  assert (O : tally_ok (0 + 0.6) a).
  { subst a. rewrite fold_left_app, <- synthetic_loop_voters.
    apply synthetic_loop_weight; [exact U|].
    apply cast_models_ok; [exact F | apply tally_zero]. }
  destruct S as (t & x & w & Et & Ex & Ew & Ht & Hx & Hw).
  destruct O as (t' & x' & w' & _ & _ & Ew' & _ & _ & Hlo).
  rewrite Ew in Ew'. injection Ew' as <-.
  exists t, x, w. repeat split; try assumption; lra.
Qed.

Lemma ensemblePrediction_voters (rnd : nat -> Q) (models : list Vote) (i : nat) :
  fst (synthetic_loop rnd 5 0 (fold_left cast_model models tally0) i) =
  fold_left cast_model (models ++ synthetic_voters rnd 5 0 i)%list tally0.
Proof.
  now rewrite synthetic_loop_voters, fold_left_app.
Qed.



(** X21: when all voters, the well-formed model votes and the five synthetic
    ones, vote for the same symbol, the aggregator reports 100.00% and the
    label of that symbol. *)
Theorem ensemble_unanimous (rnd : nat -> Q) (models : list Vote) (c : ascii) (i : nat) :
  unit_draws rnd -> Forall well_formed models -> is_TX c ->
  Forall (fun v => prediction v = c) (models ++ synthetic_voters rnd 5 0 i) ->
  let e := fst (ensemblePrediction rnd models i) in
  Ensemble.do_tin_cay e = "100.00%" /\
  Ensemble.du_doan e = (if (c =? "T")%char then "TAI" else "XIU").
Proof.
  intros U F Hc A e. subst e. rewrite ensemblePrediction_unfold.
  cbn [fst Ensemble.do_tin_cay Ensemble.du_doan].
  fold tally0. rewrite ensemblePrediction_voters.
  set (voters := (models ++ synthetic_voters rnd 5 0 i)%list) in *.
  destruct (final_tally rnd models i U F) as (t & x & w & _ & _ & Ew & _ & _ & _ & Hlo).
  fold voters in Ew.
  assert (W : total_weight voters = Fin w).
  { rewrite <- Ew. symmetry. apply cast_models_total. }
  assert (All : forall d, d = c ->
            filter (fun v => (prediction v =? d)%char) voters = voters).
  { intros d ->. apply filter_all.
    eapply Forall_impl; [|exact A]. intros v ->. apply Ascii.eqb_refl. }
  assert (Non : forall d, d <> c ->
            filter (fun v => (prediction v =? d)%char) voters = []).
  { intros d Hd. apply filter_none.
    eapply Forall_impl; [|exact A]. intros v ->. apply Ascii.eqb_neq. congruence. }
  rewrite (cast_models_votes "T" votesT), (cast_models_votes "X" votesX),
    cast_models_total by reflexivity.
  cbn [tally0 votesT votesX totalConfidence]. fold (total_weight voters). rewrite W.
  assert (P : toFixed2 (mul (div (Fin w) (Fin w)) (Fin 100)) ++ "%" = "100.00%").
  { rewrite div_pos by lra. cbn [mul].
    rewrite (toFixed2_Qeq _ 100) by (field; lra). reflexivity. }
  destruct Hc as [-> | ->]; cbn [Ascii.eqb Bool.eqb].
  - rewrite (All "T"%char eq_refl), (Non "X"%char) by discriminate.
    fold (total_weight voters). rewrite W. cbn [map fold_left].
    assert (G : gtb (Fin w) (Fin 0) = true) by (apply Qltb_lt; lra).
    cbn [max]. rewrite G. split; [exact P | reflexivity].
  - rewrite (All "X"%char eq_refl), (Non "T"%char) by discriminate.
    fold (total_weight voters). rewrite W. cbn [map fold_left].
    assert (G : gtb (Fin 0) (Fin w) = false) by (apply Qltb_ge; lra).
    cbn [max]. rewrite G. split; [exact P | reflexivity].
Qed.

Lemma ensemble_unanimous_witness :
  let rnd := fun _ : nat => 0.9 in
  unit_draws rnd /\ Forall well_formed [] /\ is_TX "T" /\
  Forall (fun v => prediction v = "T"%char) ([] ++ synthetic_voters rnd 5 0 0) /\
  Ensemble.do_tin_cay (fst (ensemblePrediction rnd [] 0%nat)) = "100.00%" /\
  Ensemble.du_doan (fst (ensemblePrediction rnd [] 0%nat)) = "TAI".
Proof.
  intro rnd.
  assert (U : unit_draws rnd).
  { intro k. split; [unfold Qle | unfold Qlt]; simpl; lia. }
  assert (F : Forall well_formed []) by constructor.
  assert (H : is_TX "T") by (left; reflexivity).
  assert (A : Forall (fun v => prediction v = "T"%char)
                ([] ++ synthetic_voters rnd 5 0 0)).
  { repeat constructor. }
  split; [exact U|]. split; [exact F|]. split; [exact H|]. split; [exact A|].
  exact (ensemble_unanimous rnd [] "T" 0%nat U F H A).
Defined.

(** ** The order of the pattern *)

Lemma get_string_of_list_ascii (l : list ascii) (k : nat) :
  get k (string_of_list_ascii l) = nth_error l k.
Proof.
  revert k. induction l as [|c l IH]; intro k; destruct k; simpl; auto.
Qed.

(** X22: in the handler the pattern lists the sorted sessions backwards: the
    session at index [k] of the sorted array gives the character at index
    [length - 1 - k] of the pattern. *)
Theorem pattern_index (data_list : list Session) (k : nat) (s : Session) :
  nth_error (sort_desc data_list) k = Some s ->
  get (length data_list - 1 - k) (getRecentPatterns (sort_desc data_list) 5) =
  Some (symbol s).
Proof.
  intro H.
  assert (L : (k < length (sort_desc data_list))%nat).
  { apply nth_error_Some. congruence. }
  rewrite getRecentPatterns_unfold, get_string_of_list_ascii.
  rewrite <- (sort_desc_length data_list).
  set (l := sort_desc data_list) in *.
  rewrite nth_error_rev, length_map.
  assert (B : (length l - 1 - k <? length l)%nat = true) by (apply Nat.ltb_lt; lia).
  rewrite B.
  replace (length l - S (length l - 1 - k))%nat with k by lia.
  now rewrite nth_error_map, H.
Qed.

Lemma pattern_index_witness :
  let data_list := [mk 1 "XIU"; mk 3 "TAI"; mk 2 "TAI"] in
  nth_error (sort_desc data_list) 0 = Some (mk 3 "TAI") /\
  get (length data_list - 1 - 0) (getRecentPatterns (sort_desc data_list) 5) =
  Some (symbol (mk 3 "TAI")).
Proof.
  intro data_list.
  assert (H : nth_error (sort_desc data_list) 0 = Some (mk 3 "TAI")) by reflexivity.
  split; [exact H|].
  exact (pattern_index data_list 0 (mk 3 "TAI") H).
Defined.

(** ** The [catch] answer *)

(** X23: the pure part of the handler never takes the [catch] answer, and it
    answers [No sessions found] exactly when the list is empty. *)
Theorem predict_never_fails (rnd : nat -> Q) (data_list : list Session) (i : nat) :
  fst (predict rnd data_list i) <> failed /\
  (data_list = [] <-> fst (predict rnd data_list i) = ErrorJson 200 "No sessions found").
Proof.
  destruct data_list as [|s l].
  - split; [discriminate|]. split; reflexivity.
  - assert (Hne : s :: l <> []) by discriminate.
    destruct (predict_returns_output (s :: l) Hne)
      as (latest & rest & v3 & v5 & Es & E3 & _ & E5 & _).
    rewrite (predict_unfold rnd (s :: l) latest rest i v3 v5 Es E3 E5).
    cbn [fst]. split; [discriminate|]. split; discriminate.
Qed.

(** * The program over binary64 numbers *)

(** ** Comparisons *)

Lemma SFcompare_Eq_sym (a b : spec_float) :
  SFcompare a b = Some Eq -> SFcompare b a = Some Eq.
Proof.
  destruct a as [sa | sa | | sa ma ea], b as [sb | sb | | sb mb eb];
    cbn; try discriminate; try reflexivity;
    try (destruct sa; discriminate); try (destruct sb; discriminate).
  - destruct sa, sb; (discriminate || reflexivity).
  - change (Pos.compare_cont Eq ma mb) with (Pos.compare ma mb).
    change (Pos.compare_cont Eq mb ma) with (Pos.compare mb ma).
    destruct sa, sb; try discriminate;
      destruct (Z.compare_spec ea eb) as [-> | _ | _]; try discriminate;
      rewrite Z.compare_refl;
      destruct (Pos.compare_spec ma mb) as [-> | _ | _]; try discriminate;
      now rewrite Pos.compare_refl.
Qed.

(** Two numbers that compare equal are not one above the other. *)
Lemma eqb_not_gtb (a b : F64.f64) : F64.eqb a b = true -> F64.gtb a b = false.
Proof.
  unfold F64.eqb, F64.gtb, SFeqb, SFltb. intro H.
  destruct (SFcompare a b) as [[ | | ]|] eqn:E; try discriminate.
  now rewrite (SFcompare_Eq_sym a b E).
Qed.

(** ** The aggregator *)

Section Aggregator64.

Variable rnd : nat -> F64.f64.

Lemma synthetic64_position (start i : nat) :
  snd (B64.synthetic rnd start i) = (i + 2)%nat.
Proof.
  unfold B64.synthetic, bind, B64.Math_random, ret. cbn [snd]. lia.
Qed.

Lemma synthetic_loop64_step (count start : nat) (a : B64.Tally) (i : nat) :
  B64.synthetic_loop rnd (S count) start a i =
  B64.synthetic_loop rnd count (S start)
    (B64.cast_model a (fst (B64.synthetic rnd start i))) (i + 2)%nat.
Proof.
  cbn [B64.synthetic_loop]. unfold bind at 1.
  rewrite (surjective_pairing (B64.synthetic rnd start i)), synthetic64_position.
  reflexivity.
Qed.

Lemma synthetic_loop64_position (count start : nat) (a : B64.Tally) (i : nat) :
  snd (B64.synthetic_loop rnd count start a i) = (i + 2 * count)%nat.
Proof.
  revert start a i. induction count as [|count IH]; intros start a i.
  - cbn. lia.
  - rewrite synthetic_loop64_step, IH. lia.
Qed.

Lemma synthetic_loop64_voters (count start : nat) (a : B64.Tally) (i : nat) :
  fst (B64.synthetic_loop rnd count start a i) =
  fold_left B64.cast_model (B64.synthetic_voters rnd count start i) a.
Proof.
  revert start a i. induction count as [|count IH]; intros start a i; [reflexivity|].
  rewrite synthetic_loop64_step, IH. reflexivity.
Qed.

Lemma synthetic_voters64_length (count start i : nat) :
  length (B64.synthetic_voters rnd count start i) = count.
Proof.
  revert start i. induction count as [|count IH]; intros start i; [reflexivity|].
  cbn [B64.synthetic_voters length]. now rewrite IH.
Qed.

(** The result of the aggregator in terms of its accumulators after the ten
    voters. *)
Lemma ensemblePrediction64_unfold (models : list B64.Vote) (i : nat) :
  let a := fold_left B64.cast_model
             (models ++ B64.synthetic_voters rnd 5 0 i)%list B64.tally0 in
  B64.ensemblePrediction rnd models i =
  ({| Ensemble.du_doan :=
        if F64.gtb (B64.votesT a) (B64.votesX a) then "TAI" else "XIU";
      Ensemble.do_tin_cay :=
        F64.toFixed2
          (F64.mul (F64.div (F64.max (B64.votesT a) (B64.votesX a))
                            (B64.totalConfidence a)) F64.c100) ++ "%";
      Ensemble.giai_thich :=
        "GIẢI THÍCH AI TỔNG HỢP: Phân tích từ 10 AI (5 model chính + 5 bổ sung). Mẫu cầu gần nhất: "
        ++ join " | " (B64.explains a) ++ " Kết quả chính: " ++
        (if F64.gtb (B64.votesT a) (B64.votesX a) then "TAI" else "XIU") ++
        " dựa trên phiếu bầu và trọng số." |},
   (i + 10)%nat).
Proof.
  intro a. unfold B64.ensemblePrediction, bind.
  rewrite (surjective_pairing (B64.synthetic_loop rnd 5 0 _ i)).
  rewrite synthetic_loop64_position, synthetic_loop64_voters, <- fold_left_app.
  reflexivity.
Qed.

End Aggregator64.

Lemma cast_models64_votes (c : ascii) (proj : B64.Tally -> F64.f64)
      (voters : list B64.Vote) (a : B64.Tally) :
  (forall pred conf text b,
      proj (B64.cast pred conf text b) =
      if (pred =? c)%char then F64.add (proj b) conf else proj b) ->
  proj (fold_left B64.cast_model voters a) =
  fold_left F64.add
    (map B64.confidence
       (filter (fun v => (B64.prediction v =? c)%char) voters)) (proj a).
Proof.
  intro P. revert a. induction voters as [|v voters IH]; intro a; [reflexivity|].
  cbn [fold_left filter]. rewrite IH. unfold B64.cast_model at 1. rewrite P.
  destruct (B64.prediction v =? c)%char; reflexivity.
Qed.

Lemma cast_models64_total (voters : list B64.Vote) (a : B64.Tally) :
  B64.totalConfidence (fold_left B64.cast_model voters a) =
  fold_left F64.add (map B64.confidence voters) (B64.totalConfidence a).
Proof.
  revert a. induction voters as [|v voters IH]; intro a; [reflexivity|].
  cbn [fold_left map]. rewrite IH. reflexivity.
Qed.

Lemma cast_models64_explains (voters : list B64.Vote) (a : B64.Tally) :
  B64.explains (fold_left B64.cast_model voters a) =
  (B64.explains a ++ map B64.explain voters)%list.
Proof.
  revert a. induction voters as [|v voters IH]; intro a.
  - cbn. now rewrite app_nil_r.
  - cbn [fold_left map]. rewrite IH. cbn [B64.cast_model B64.cast B64.explains].
    now rewrite <- app_assoc.
Qed.

(** C6: for every list of model votes and the five synthetic voters of a run,
    with [votes_T] and [votes_X] the confidences of the voters for T and for
    X added up in order and [total_weight] those of all voters, in binary64
    as the program adds them, the aggregator answers TAI (HIGH) exactly when
    [votes_T > votes_X] and XIU (LOW) otherwise, two equal sums giving XIU,
    and its confidence is [max(votes_T, votes_X) / total_weight * 100]
    printed with two decimals and a percent sign. *)
Theorem ensemble_decision_binary64
        (rnd : nat -> F64.f64) (models : list B64.Vote) (i : nat) :
  let voters := (models ++ B64.synthetic_voters rnd 5 0 i)%list in
  let votes_T := B64.weight_for "T" voters in
  let votes_X := B64.weight_for "X" voters in
  let e := fst (B64.ensemblePrediction rnd models i) in
  (Ensemble.du_doan e = "TAI" <-> F64.gtb votes_T votes_X = true) /\
  (Ensemble.du_doan e = "XIU" <-> F64.gtb votes_T votes_X = false) /\
  (F64.eqb votes_T votes_X = true -> Ensemble.du_doan e = "XIU") /\
  Ensemble.do_tin_cay e =
  F64.toFixed2
    (F64.mul (F64.div (F64.max votes_T votes_X) (B64.total_weight voters))
             F64.c100) ++ "%".
Proof.
  intros voters votes_T votes_X e.
  subst e. rewrite ensemblePrediction64_unfold.
  cbn [fst Ensemble.du_doan Ensemble.do_tin_cay]. fold voters.
  rewrite (cast_models64_votes "T" B64.votesT), (cast_models64_votes "X" B64.votesX),
    cast_models64_total by reflexivity.
  change (B64.votesT B64.tally0) with F64.c0.
  change (B64.votesX B64.tally0) with F64.c0.
  change (B64.totalConfidence B64.tally0) with F64.c0.
  fold (B64.weight_for "T" voters). fold (B64.weight_for "X" voters).
  fold (B64.total_weight voters). fold votes_T. fold votes_X.
  split; [|split; [|split]].
  - destruct (F64.gtb votes_T votes_X); split; intro H;
      (reflexivity || discriminate).
  - destruct (F64.gtb votes_T votes_X); split; intro H;
      (reflexivity || discriminate).
  - intro H. now rewrite (eqb_not_gtb _ _ H).
  - reflexivity.
Qed.

(** X20: the aggregator hears the model votes and five synthetic voters, and
    its explanation is the fixed heading, the explanations of the voters in
    that order joined by a bar, and a closing sentence that names the
    prediction; the confidence in the text of a synthetic voter is the
    binary64 value of [0.6 + r * 0.2] printed with two decimals. *)
Theorem ensemble_explanation_binary64
        (rnd : nat -> F64.f64) (models : list B64.Vote) (i : nat) :
  let voters := (models ++ B64.synthetic_voters rnd 5 0 i)%list in
  let e := fst (B64.ensemblePrediction rnd models i) in
  length voters = (length models + 5)%nat /\
  Ensemble.giai_thich e =
  "GIẢI THÍCH AI TỔNG HỢP: Phân tích từ 10 AI (5 model chính + 5 bổ sung). Mẫu cầu gần nhất: "
  ++ join " | " (map B64.explain voters) ++ " Kết quả chính: " ++
  Ensemble.du_doan e ++ " dựa trên phiếu bầu và trọng số.".
Proof.
  intros voters e. split.
  - subst voters. now rewrite length_app, synthetic_voters64_length.
  - subst e. rewrite ensemblePrediction64_unfold.
    cbn [fst Ensemble.giai_thich Ensemble.du_doan]. fold voters.
    rewrite cast_models64_explains. reflexivity.
Qed.

(** ** The handler *)







(** ** The program on inputs where the rounding decides *)

(** One XIU session and draws that make the exact sums of the two sides
    equal, 61/20 each: the binary64 sums differ in the last place, and the
    answer is TAI with 50.00%, where exact sums answer XIU. *)
Example tie_of_exact_sums :
  let rnd := draws [F64.dec 25 100; F64.dec 25 100; F64.dec 75 100;
                    F64.dec 25 100; F64.dec 5 10; F64.dec 75 100; F64.c0;
                    F64.dec 75 100; F64.c0; F64.dec 75 100; F64.c0] in
  exists out,
    B64.predict rnd [mk 1 "XIU"] 0%nat = (OutputJson out, 11%nat) /\
    Output.du_doan out = "TAI" /\ Output.do_tin_cay out = "50.00%".
Proof.
  intro rnd. eexists. split; [vm_compute; reflexivity|].
  split; reflexivity.
Qed.

(** The confidence 0.6 + 0.625 * 0.2 of a synthetic voter is printed 0.72. *)
Example synthetic_confidence_text :
  B64.explain (fst (B64.synthetic (draws [F64.dec 75 100; F64.dec 625 1000])
                      0%nat 0%nat)) =
  "AI bổ sung 1: Dự đoán Tài với độ tin cậy 0.72.".
Proof. vm_compute. reflexivity. Qed.

(** The share 33/40 of model 3 is printed 0.82. *)
Example markov_probability_text :
  F64.toFixed2 (B64.markov_pT "T" {| TT := 33; TX := 7; XT := 0; XX := 0 |}) = "0.82".
Proof. vm_compute. reflexivity. Qed.

(** Shares whose percentage lies at a rounding tie in exact arithmetic. *)
Example percent_at_ties :
  B64.percent 12001 20000 = "60.00%" /\
  B64.percent 23 160 = "14.37%" /\
  B64.percent 3 20000 = "0.01%" /\
  B64.percent 19997 20000 = "99.98%" /\
  B64.percent 1 32 = "3.13%".
Proof. vm_compute. repeat split. Qed.

(** Adding one to an id: exact up to 2^53, absorbed from there on. *)
Example next_session_values :
  F64.add (F64.of_Z 41) F64.c1 = F64.of_Z 42 /\
  F64.add (F64.of_Z (2 ^ 53 - 1)) F64.c1 = F64.of_Z (2 ^ 53) /\
  F64.add (F64.of_Z (2 ^ 53)) F64.c1 = F64.of_Z (2 ^ 53).
Proof. vm_compute. repeat split. Qed.

(** The literals are the binary64 numbers nearest to their decimals: each
    differs from its decimal by at most half a unit in the last place,
    2^[h]. *)
Example literals_nearest (q : Q) (x : F64.f64) (h : Z) :
  In (q, x, h) [(0.2, F64.c0_2, (-56)%Z); (0.3, F64.c0_3, (-55)%Z);
                (0.5, F64.c0_5, (-54)%Z); (0.6, F64.c0_6, (-54)%Z);
                (0.65, F64.c0_65, (-54)%Z); (0.7, F64.c0_7, (-54)%Z);
                (0.75, F64.c0_75, (-54)%Z); (0.8, F64.c0_8, (-54)%Z)] ->
  exists v, F64.value x = Fin v /\
            - Qpower 2 h <= v - q /\ v - q <= Qpower 2 h.
Proof.
  intro H. simpl in H.
  repeat (destruct H as [H | H];
          [injection H as <- <- <-; eexists; split;
           [reflexivity | split; vm_compute; discriminate]|]).
  contradiction.
Qed.

(** ** Model 5 on the printed percentage *)

Lemma share_table_ok_spec (bound t n : nat) :
  share_table_ok bound = true -> (0 < n <= bound)%nat -> (t <= n)%nat ->
  high_share64 (Z.of_nat t) (Z.of_nat n) =
  (12001 * Z.of_nat n <=? 20000 * Z.of_nat t)%Z.
Proof.
  intros H Hn Ht.
  unfold share_table_ok in H. rewrite forallb_forall in H.
  assert (R : share_row_ok n = true) by (apply H, in_seq; lia).
  unfold share_row_ok in R. rewrite forallb_forall in R.
  apply eqb_prop, R, in_seq. lia.
Qed.

Lemma share_table : share_table_ok 128 = true.
Proof. vm_compute. reflexivity. Qed.

Lemma high_share64_test (t n : nat) :
  (0 < n <= 128)%nat -> (t <= n)%nat ->
  high_share64 (Z.of_nat t) (Z.of_nat n) =
  (12001 * Z.of_nat n <=? 20000 * Z.of_nat t)%Z.
Proof. exact (share_table_ok_spec 128 t n share_table). Qed.

(** X18: in the handler, for at most 128 sessions, with a pattern that starts
    with [c], [t] TAI sessions out of [n] and [streak] the length of the run
    of [c] at the head of the pattern, model 5 votes for the other symbol
    with 0.7 when [streak >= 4], else X with 0.65 when [20000 t >= 12001 n]
    (the printed percentage of TAI exceeds 60), else [c] with 0.6.  The
    percentage is the binary64 one the program prints and reads back; the
    bound is the range over which the test was evaluated for every pair
    [t <= n]. *)
Theorem model5_by_counts_binary64 (sessions : list Session) (c : ascii) (r : string) :
  (length sessions <= 128)%nat ->
  getRecentPatterns sessions 5 = String c r ->
  let pattern := getRecentPatterns sessions 5 in
  let streak := String.length (run_of c pattern) in
  let t := Z.of_nat (length (filter is_tai sessions)) in
  let n := Z.of_nat (length sessions) in
  exists v,
    B64.model5Heuristic pattern (B64.calculateRatios sessions) = Some v /\
    (B64.prediction v, B64.confidence v) =
    if (4 <=? streak)%nat then (opposite c, F64.c0_7)
    else if (12001 * n <=? 20000 * t)%Z then ("X"%char, F64.c0_65)
    else (c, F64.c0_6).
Proof.
  intros Hb Ep pattern streak t n.
  assert (Hne : sessions <> []).
  { intros ->. discriminate Ep. }
  destruct (getRecentPatterns_starts_TX sessions Hne) as (c' & r' & Ep' & Hc).
  rewrite Ep in Ep'. injection Ep' as <- <-.
  assert (Hn : (0 < length sessions)%nat).
  { destruct sessions; [congruence | simpl; lia]. }
  pose proof (filter_length_bound is_tai sessions) as Ht.
  subst streak pattern. rewrite Ep.
  unfold B64.model5Heuristic, match_streak. cbn [get].
  rewrite (proj2 (is_TX_eqb c) Hc).
  destruct (4 <=? _)%nat; [eexists; split; reflexivity|].
  unfold B64.calculateRatios; cbn [Tai].
  change (F64.gtb (F64.parseFloat (B64.percent (Z.of_nat (length (filter is_tai sessions)))
                                               (Z.of_nat (length sessions)))) F64.c60)
    with (high_share64 (Z.of_nat (length (filter is_tai sessions))) (Z.of_nat (length sessions))).
  rewrite high_share64_test by lia. fold t. fold n.
  destruct (12001 * n <=? 20000 * t)%Z; eexists; split; reflexivity.
Qed.

Lemma model5_by_counts_binary64_witness :
  let sessions := [mk 3 "TAI"; mk 2 "TAI"; mk 1 "XIU"] in
  let pattern := getRecentPatterns sessions 5 in
  let streak := String.length (run_of "X" pattern) in
  let t := Z.of_nat (length (filter is_tai sessions)) in
  let n := Z.of_nat (length sessions) in
  (length sessions <= 128)%nat /\
  getRecentPatterns sessions 5 = String "X" "TT" /\
  exists v,
    B64.model5Heuristic pattern (B64.calculateRatios sessions) = Some v /\
    (B64.prediction v, B64.confidence v) =
    if (4 <=? streak)%nat then (opposite "X", F64.c0_7)
    else if (12001 * n <=? 20000 * t)%Z then ("X"%char, F64.c0_65)
    else ("X"%char, F64.c0_6).
Proof.
  intros sessions pattern streak t n.
  assert (L : (length sessions <= 128)%nat) by (simpl; lia).
  assert (E : getRecentPatterns sessions 5 = String "X" "TT") by reflexivity.
  split; [exact L|]. split; [exact E|].
  exact (model5_by_counts_binary64 sessions "X" "TT" L E).
Defined.
